(** * IoT ML pipeline: anomaly detector and tiered ingestion

    A shallow embedding of the Python sources

      - [ml-models/anomaly_detector.py]      (class [AnomalyDetector])
      - [final_working_pipeline.py]          (class [FinalWorkingPipeline])
      - [dashboard/resilient_pipeline.py]    (class [ResilientPipeline])
      - [dashboard/working_pipeline.py]      (class [WorkingPipeline])

    Python floats are IEEE-754 binary64 values and are modelled by Rocq's
    primitive floats.  Exceptions are modelled by a [result] type; code that
    talks to PostgreSQL or to the file system runs in a state-and-exception
    monad over a [World] whose fault oracle decides which backend operations
    fail. *)

From Stdlib Require Import ZArith List String Bool Lia Floats.
From stdpp Require Import base gmap strings list.

Local Open Scope Z_scope.
Local Open Scope string_scope.

(** ** Python exceptions and results *)

Module Py.

(** The exception classes that occur in the modelled code.  [SystemExit]
    and [KeyboardInterrupt] derive from [BaseException] only, so a clause
    [except Exception] does not catch them. *)
Inductive exn : Type :=
| ZeroDivisionError
| ValueError
| NotFittedError
| IndexError
| OSError
| FileNotFoundError
| UnpicklingError
| DatabaseError
| AttributeError
| SystemExit (code : Z)
| KeyboardInterrupt.

Definition is_Exception (e : exn) : bool :=
  match e with
  | SystemExit _ | KeyboardInterrupt => false
  | _ => true
  end.

Definition is_KeyboardInterrupt (e : exn) : bool :=
  match e with
  | KeyboardInterrupt => true
  | _ => false
  end.

Inductive result (A : Type) : Type :=
| Ok (a : A)
| Raise (e : exn).

Arguments Ok {A} a.
Arguments Raise {A} e.

Definition bind {A B : Type} (r : result A) (k : A -> result B) : result B :=
  match r with
  | Ok a => k a
  | Raise e => Raise e
  end.

Definition raises {A : Type} (r : result A) : Prop :=
  exists e, r = Raise e.

(** Python's [a / b] on floats: IEEE division, except that a zero divisor
    (of either sign) raises [ZeroDivisionError]. *)
Definition truediv (a b : float) : result float :=
  if PrimFloat.eqb b 0%float then Raise ZeroDivisionError
  else Ok (PrimFloat.div a b).

End Py.

Import Py.

Declare Scope py_scope.
Delimit Scope py_scope with py.
Notation "'do' x <- c ; k" := (Py.bind c (fun x => k))
  (at level 10, x name, c at level 100, k at level 200) : py_scope.

(** ** Readings *)

(** A [datetime] object, represented by the renderings the code takes of it:
    [strftime('%Y%m%d_%H%M%S')], [strftime('%Y%m%d_%H')],
    [strftime('%Y/%m/%d/%H')], [strftime('%Y/%m/%d')], [isoformat()], and the
    decimal digits of [int(time.time())] at that instant. *)
Record datetime : Type := mk_datetime {
  strftime_compact : string;
  strftime_hour : string;
  strftime_path_hour : string;
  strftime_path_day : string;
  isoformat : string;
  epoch_seconds : string
}.

(** The dict produced by [generate_sensor_reading]. *)
Record Reading : Type := mk_reading {
  sensor_id : string;
  timestamp : datetime;
  temperature : float;
  humidity : float;
  actual_anomaly : bool;
  severity : string
}.

(** Values of [ml_prediction]: [-1] is an anomaly, [0] is normal. *)
Definition ANOMALOUS : Z := -1.
Definition NORMAL : Z := 0.

(** ** [ml-models/anomaly_detector.py] *)

Module AnomalyDetector.

(** A two-dimensional [numpy] array of floats, as a list of rows. *)
Definition ndarray : Type := list (list float).

(** One iteration of the loop of [extract_features]:
    [[record['temperature'], record['humidity'],
      record['temperature'] / record['humidity']
        if record['humidity'] > 0 else 0]].
    The integer [0] of the [else] branch becomes [0.0] in the array. *)
Definition feature_row (record : Reading) : result (list float) :=
  (do ratio <- (if PrimFloat.ltb 0%float (humidity record)
                then truediv (temperature record) (humidity record)
                else Ok 0%float);
   Ok [temperature record; humidity record; ratio])%py.

Fixpoint extract_features (data : list Reading) : result ndarray :=
  match data with
  | [] => Ok []
  | record :: rest =>
      (do row <- feature_row record;
       do rows <- extract_features rest;
       Ok (row :: rows))%py
  end.

(** The feature vector the code computes, as a total function. *)
Definition features_of (record : Reading) : list float :=
  [temperature record; humidity record;
   if PrimFloat.ltb 0%float (humidity record)
   then PrimFloat.div (temperature record) (humidity record)
   else 0%float].

(** The feature vector as the specification words it: the ratio, or [0]
    if [humidity == 0]. *)
Definition spec_features_of (record : Reading) : list float :=
  [temperature record; humidity record;
   if PrimFloat.eqb (humidity record) 0%float
   then 0%float
   else PrimFloat.div (temperature record) (humidity record)].

Section Estimators.

(** The scikit-learn estimators are outside the repository.  Their
    states are abstract; [fit] and [fit_transform] mutate the estimator
    they are called on and may raise, [transform] and [predict] only
    read it and may raise. *)
Variables Scaler Model : Type.
Variable scaler_fit_transform : Scaler -> ndarray -> Scaler * result ndarray.
Variable scaler_transform : Scaler -> ndarray -> result ndarray.
Variable model_fit : Model -> ndarray -> Model * result unit.
Variable model_predict : Model -> ndarray -> result (list Z).

(** The attributes set by [__init__]. *)
Record t : Type := mk {
  model : Model;
  scaler : Scaler;
  is_trained : bool
}.

(** [__init__], given the freshly constructed estimators. *)
Definition init (fresh_model : Model) (fresh_scaler : Scaler) : t :=
  {| model := fresh_model; scaler := fresh_scaler; is_trained := false |}.

(** The path of [predict] taken by a trained detector. *)
Definition predict_trained (self : t) (data : list Reading) : result (list Z) :=
  (do features <- extract_features data;
   do scaled_features <- scaler_transform (scaler self) features;
   do predictions <- model_predict (model self) scaled_features;
   Ok (map (fun p => if Z.eqb p (-1) then -1 else 0) predictions))%py.

Definition predict (self : t) (data : list Reading) : result (list Z) :=
  if negb (is_trained self) then Ok (repeat 0 (length data))
  else predict_trained self data.

(** [train] returns the detector as the call leaves it, together with
    the outcome of the call. *)
Definition train (self : t) (data : list Reading) : t * result unit :=
  match extract_features data with
  | Raise e => (self, Raise e)
  | Ok features =>
      let (scaler1, fitted) := scaler_fit_transform (scaler self) features in
      let self1 := {| model := model self; scaler := scaler1;
                      is_trained := is_trained self |} in
      match fitted with
      | Raise e => (self1, Raise e)
      | Ok scaled_features =>
          let (model1, outcome) := model_fit (model self1) scaled_features in
          let self2 := {| model := model1; scaler := scaler1;
                          is_trained := is_trained self |} in
          match outcome with
          | Raise e => (self2, Raise e)
          | Ok _ =>
              ({| model := model1; scaler := scaler1; is_trained := true |},
               Ok tt)
          end
      end
  end.

(** What a file can hold: the pickle of [{'model': m, 'scaler': s}], or
    bytes that do not unpickle to such a dict. *)
Inductive file_content : Type :=
| Pickled (m : Model) (s : Scaler)
| Garbage.

(** The file system seen by [open]: the files, and the paths that can be
    opened for writing. *)
Record FS : Type := mk_fs {
  files : gmap string file_content;
  writable : string -> bool
}.

Definition save_model (fs : FS) (self : t) (path : string) : result FS :=
  if writable fs path
  then Ok {| files := <[path := Pickled (model self) (scaler self)]> (files fs);
             writable := writable fs |}
  else Raise OSError.

Definition load_model (fs : FS) (self : t) (path : string) : t * result unit :=
  match files fs !! path with
  | None => (self, Raise FileNotFoundError)
  | Some Garbage => (self, Raise UnpicklingError)
  | Some (Pickled m s) =>
      ({| model := m; scaler := s; is_trained := true |}, Ok tt)
  end.

End Estimators.

Arguments mk {Scaler Model}.
Arguments model {Scaler Model}.
Arguments scaler {Scaler Model}.
Arguments is_trained {Scaler Model}.
Arguments Pickled {Scaler Model}.
Arguments Garbage {Scaler Model}.
Arguments files {Scaler Model}.
Arguments writable {Scaler Model}.
Arguments predict {Scaler Model}.
Arguments predict_trained {Scaler Model}.
Arguments train {Scaler Model}.
Arguments save_model {Scaler Model}.
Arguments load_model {Scaler Model}.

End AnomalyDetector.

(** ** Backends: PostgreSQL, the local file system, the object store *)

Module Backend.

(** The SQL statements the pipelines send with [cursor.execute]. *)
Inductive statement : Type :=
| CreateTable (name : string)
| DeleteOlderThanTwoHours (table : string)
| InsertReading (sensor : string) (ts : datetime) (temp hum : float)
                (is_anomaly : bool) (ml_prediction : Z)
| InsertAlert (sensor : string) (ts : datetime) (temp hum : float)
              (alert_type : string) (sev : option string)
| InsertMetric (metric_name : string) (metric_value : float)
               (sensor : option string)
| InsertSystemEvent (event_type status message : string)
| InsertPipelineStatus (total anomalies db_saves errors : Z).

(** The dict that is serialised with [json.dump] / [json.dumps]. *)
Record json_data : Type := mk_json {
  j_sensor_id : string;
  j_timestamp : string;
  j_temperature : float;
  j_humidity : float;
  j_ml_prediction : Z;
  j_actual_anomaly : bool;
  j_severity : option string;
  j_processing_time : option string
}.

Inductive open_mode : Type := Truncate | Append.

(** A request to a backend. *)
Inductive op : Type :=
| Connect
| Execute (s : statement)
| Commit
| Close
| MakeDirs (path : string)
| WriteFile (path : string) (mode : open_mode) (data : json_data)
| ListBuckets
| PutObject (bucket key : string) (data : json_data).

(** The exception a failing request raises; each is a subclass of
    [Exception]. *)
Definition error_of (o : op) : exn :=
  match o with
  | Connect | Execute _ | Commit | Close => DatabaseError
  | _ => OSError
  end.

(** What the random source and the clock hand to
    [generate_sensor_reading]. *)
Record Sample : Type := mk_sample {
  s_timestamp : datetime;
  s_temperature : float;
  s_humidity : float;
  s_is_anomaly : bool;
  s_severity : string
}.

(** The environment of a pipeline.  [faults n] tells whether the [n]-th
    backend request of the run fails; [trace] holds every request made so
    far, most recent first, with [true] for those that succeeded;
    [samples] and [drawn] are the random source; [now] is the wall clock,
    whose advance is not modelled. *)
Record World : Type := mk_world {
  faults : nat -> bool;
  trace : list (op * bool);
  samples : nat -> Sample;
  drawn : nat;
  now : datetime
}.

Definition perform (o : op) (w : World) : result unit * World :=
  let failed := faults w (length (trace w)) in
  (if failed then Raise (error_of o) else Ok tt,
   {| faults := faults w;
      trace := (o, negb failed) :: trace w;
      samples := samples w;
      drawn := drawn w;
      now := now w |}).

Definition draw (w : World) : Sample * World :=
  (samples w (drawn w),
   {| faults := faults w;
      trace := trace w;
      samples := samples w;
      drawn := S (drawn w);
      now := now w |}).

(** The tiers of the data lake. *)
Inductive tier : Type := bronze | silver | gold.

(** Observations on a trace. *)
Definition is_insert_reading (e : op * bool) : option Z :=
  match fst e with
  | Execute (InsertReading _ _ _ _ _ p) => Some p
  | _ => None
  end.

(** The predictions of the readings whose insertion was requested. *)
Definition dispatched (tr : list (op * bool)) : list Z :=
  omap is_insert_reading tr.

Definition is_alert (e : op * bool) : bool :=
  match e with
  | (Execute (InsertAlert _ _ _ _ _ _), true) => true
  | _ => false
  end.

Definition is_commit (e : op * bool) : bool :=
  match e with
  | (Commit, true) => true
  | _ => false
  end.

(** An alert record is produced when its insertion and the commit both
    succeed. *)
Definition alerts_produced (tr : list (op * bool)) : nat :=
  if existsb is_commit tr then length (List.filter is_alert tr)
  else 0%nat.

End Backend.

Import Backend.

(** ** A state-and-exception monad *)

Module M.

Definition t (S A : Type) : Type := S -> result A * S.

Definition ret {S A : Type} (a : A) : t S A := fun s => (Ok a, s).

Definition raise {S A : Type} (e : exn) : t S A := fun s => (Raise e, s).

Definition bind {S A B : Type} (c : t S A) (k : A -> t S B) : t S B :=
  fun s =>
    match c s with
    | (Ok a, s1) => k a s1
    | (Raise e, s1) => (Raise e, s1)
    end.

Definition lift {S A : Type} (r : result A) : t S A := fun s => (r, s).

Definition get {S : Type} : t S S := fun s => (Ok s, s).

Definition modify {S : Type} (f : S -> S) : t S unit := fun s => (Ok tt, f s).

(** [try: body  except C as e: handler e], where [catches] tells which
    exceptions are instances of the class [C]. *)
Definition try_except {S A : Type} (catches : exn -> bool) (body : t S A)
  (handler : exn -> t S A) : t S A :=
  fun s =>
    match body s with
    | (Ok a, s1) => (Ok a, s1)
    | (Raise e, s1) =>
        if catches e then handler e s1 else (Raise e, s1)
    end.

(** [try: body  finally: cleanup]. *)
Definition try_finally {S A : Type} (body : t S A) (cleanup : t S unit)
  : t S A :=
  fun s =>
    match body s with
    | (r, s1) =>
        match cleanup s1 with
        | (Ok _, s2) => (r, s2)
        | (Raise e, s2) => (Raise e, s2)
        end
    end.

(** [for x in xs: body x]. *)
Fixpoint for_each {S A : Type} (xs : list A) (body : A -> t S unit)
  : t S unit :=
  match xs with
  | [] => ret tt
  | x :: rest => bind (body x) (fun _ => for_each rest body)
  end.

(** [n] iterations of the body of a [while True:] loop. *)
Fixpoint iterate {S : Type} (n : nat) (body : t S unit) : t S unit :=
  match n with
  | O => ret tt
  | S k => bind body (fun _ => iterate k body)
  end.

Definition exec {S A : Type} (c : t S A) (s : S) : S := snd (c s).
Definition outcome {S A : Type} (c : t S A) (s : S) : result A := fst (c s).

(** States that contain a [World]. *)
Class HasWorld (S : Type) : Type := {
  world_of : S -> World;
  with_world : World -> S -> S
}.

Definition backend {S : Type} `{HasWorld S} (o : op) : t S unit :=
  fun s =>
    let (r, w) := perform o (world_of s) in (r, with_world w s).

Definition next_sample {S : Type} `{HasWorld S} : t S Sample :=
  fun s =>
    let (x, w) := draw (world_of s) in (Ok x, with_world w s).

Definition clock {S : Type} `{HasWorld S} : t S datetime :=
  fun s => (Ok (now (world_of s)), s).

End M.

Declare Scope m_scope.
Delimit Scope m_scope with m.
Notation "x <- c ;; k" := (M.bind c (fun x => k))
  (at level 100, c at next level, right associativity) : m_scope.
Notation "c ;; k" := (M.bind c (fun _ => k))
  (at level 100, right associativity) : m_scope.

Local Open Scope m_scope.

(** ** [final_working_pipeline.py] *)

Module FinalWorkingPipeline.

(** [self.stats]. *)
Record Stats : Type := mk_stats {
  total_readings : Z;
  anomalies_detected : Z;
  files_created : Z;
  start_time : datetime
}.

Record Self : Type := mk_self {
  world : World;
  stats : Stats
}.

#[export] Instance self_world : M.HasWorld Self := {|
  M.world_of := world;
  M.with_world := fun w s => {| world := w; stats := stats s |}
|}.

Definition sensors : list string :=
  ["sensor_001"; "sensor_002"; "sensor_003"; "sensor_004"; "sensor_005"].

(** The handler of [setup_database] calls [exit(1)], which raises
    [SystemExit]. *)
Definition setup_database : M.t Self unit :=
  M.try_except is_Exception
    (M.backend Connect ;;
     M.backend (Execute (CreateTable "sensor_readings")) ;;
     M.backend (Execute (CreateTable "anomaly_alerts")) ;;
     M.backend (Execute (DeleteOlderThanTwoHours "sensor_readings")) ;;
     M.backend (Execute (DeleteOlderThanTwoHours "anomaly_alerts")) ;;
     M.backend Commit)
    (fun _ => M.raise (SystemExit 1)).

Definition directories : list string :=
  ["minio_data/bronze/raw_data";
   "minio_data/silver/processed_data";
   "minio_data/gold/anomalies"].

Definition setup_file_storage : M.t Self unit :=
  M.for_each directories (fun directory => M.backend (MakeDirs directory)).

Definition reset_stats : M.t Self unit :=
  start <- M.clock ;;
  M.modify (fun s =>
    {| world := world s;
       stats := {| total_readings := 0; anomalies_detected := 0;
                   files_created := 0; start_time := start |} |}).

(** [__init__] once [load_model] has returned; [load_model] involves the
    detector and its model file only. *)
Definition init : M.t Self unit :=
  setup_database ;;
  setup_file_storage ;;
  reset_stats.

Definition generate_sensor_reading (sensor : string) : M.t Self Reading :=
  x <- M.next_sample ;;
  M.ret {| sensor_id := sensor;
           timestamp := s_timestamp x;
           temperature := s_temperature x;
           humidity := s_humidity x;
           actual_anomaly := s_is_anomaly x;
           severity := s_severity x |}.

Definition insert_reading (reading : Reading) (prediction : Z) : statement :=
  InsertReading (sensor_id reading) (timestamp reading) (temperature reading)
    (humidity reading) (actual_anomaly reading) prediction.

Definition insert_alert (reading : Reading) : statement :=
  InsertAlert (sensor_id reading) (timestamp reading) (temperature reading)
    (humidity reading) "ML_DETECTED" (Some (severity reading)).

Definition save_to_database (reading : Reading) (prediction : Z)
  : M.t Self bool :=
  M.try_except is_Exception
    (M.backend (Execute (insert_reading reading prediction)) ;;
     (if Z.eqb prediction (-1)
      then M.backend (Execute (insert_alert reading))
      else M.ret tt) ;;
     M.backend Commit ;;
     M.ret true)
    (fun _ => M.ret false).

Definition bronze_file (reading : Reading) : string :=
  "minio_data/bronze/raw_data/" +:+ sensor_id reading +:+ "_"
    +:+ strftime_compact (timestamp reading) +:+ ".json".

Definition gold_file (reading : Reading) : string :=
  "minio_data/gold/anomalies/anomaly_" +:+ sensor_id reading +:+ "_"
    +:+ strftime_compact (timestamp reading) +:+ ".json".

Definition silver_file (reading : Reading) : string :=
  "minio_data/silver/processed_data/normal_" +:+ sensor_id reading +:+ "_"
    +:+ strftime_compact (timestamp reading) +:+ ".json".

Definition file_data (reading : Reading) (prediction : Z) (processing : datetime)
  : json_data :=
  {| j_sensor_id := sensor_id reading;
     j_timestamp := isoformat (timestamp reading);
     j_temperature := temperature reading;
     j_humidity := humidity reading;
     j_ml_prediction := prediction;
     j_actual_anomaly := actual_anomaly reading;
     j_severity := Some (severity reading);
     j_processing_time := Some (isoformat processing) |}.

Definition bump_files_created : M.t Self unit :=
  M.modify (fun s =>
    {| world := world s;
       stats := {| total_readings := total_readings (stats s);
                   anomalies_detected := anomalies_detected (stats s);
                   files_created := files_created (stats s) + 1;
                   start_time := start_time (stats s) |} |}).

Definition save_to_files (reading : Reading) (prediction : Z)
  : M.t Self bool :=
  M.try_except is_Exception
    (processing <- M.clock ;;
     let data := file_data reading prediction processing in
     M.backend (WriteFile (bronze_file reading) Truncate data) ;;
     (if Z.eqb prediction (-1)
      then M.backend (WriteFile (gold_file reading) Truncate data)
      else M.backend (WriteFile (silver_file reading) Truncate data)) ;;
     bump_files_created ;;
     M.ret true)
    (fun _ => M.ret false).

Definition bump_total_readings : M.t Self unit :=
  M.modify (fun s =>
    {| world := world s;
       stats := {| total_readings := total_readings (stats s) + 1;
                   anomalies_detected := anomalies_detected (stats s);
                   files_created := files_created (stats s);
                   start_time := start_time (stats s) |} |}).

Definition bump_anomalies_detected : M.t Self unit :=
  M.modify (fun s =>
    {| world := world s;
       stats := {| total_readings := total_readings (stats s);
                   anomalies_detected := anomalies_detected (stats s) + 1;
                   files_created := files_created (stats s);
                   start_time := start_time (stats s) |} |}).

(** The body of the [for] loop of [run_pipeline] from the two saves on
    (the printed lines are left out). *)
Definition process_reading (reading : Reading) (prediction : Z)
  : M.t Self unit :=
  _ <- save_to_database reading prediction ;;
  _ <- save_to_files reading prediction ;;
  bump_total_readings ;;
  (if Z.eqb prediction (-1) then bump_anomalies_detected else M.ret tt).

(** The tier a file of [minio_data] belongs to. *)
Definition tier_prefix (t : tier) : string :=
  match t with
  | bronze => "minio_data/bronze/"
  | silver => "minio_data/silver/"
  | gold => "minio_data/gold/"
  end.

Definition is_write_to (t : tier) (e : op * bool) : bool :=
  match e with
  | (WriteFile path _ _, true) => String.prefix (tier_prefix t) path
  | _ => false
  end.

(** The number of files a trace puts into a tier. *)
Definition writes_to (t : tier) (tr : list (op * bool)) : nat :=
  length (List.filter (is_write_to t) tr).

Section Loop.

(** [self.detector.predict], for the detector that [load_model] left. *)
Variable predict : list Reading -> result (list Z).

(** [prediction = self.detector.predict([reading])[0]]. *)
Definition classify (reading : Reading) : M.t Self Z :=
  predictions <- M.lift (predict [reading]) ;;
  match predictions with
  | p :: _ => M.ret p
  | [] => M.raise IndexError
  end.

Definition process_sensor (sensor : string) : M.t Self unit :=
  reading <- generate_sensor_reading sensor ;;
  prediction <- classify reading ;;
  process_reading reading prediction.

(** One iteration of [while True:]; the status display and the sleep
    touch no state. *)
Definition cycle : M.t Self unit :=
  M.for_each sensors process_sensor.

Definition run_cycles (n : nat) : M.t Self unit :=
  M.iterate n cycle.

(** [run_pipeline], interrupted from the keyboard during the sleep that
    follows the [n]-th cycle. *)
Definition run_pipeline (n : nat) : M.t Self unit :=
  M.try_finally
    (M.try_except is_KeyboardInterrupt
       (run_cycles n ;; M.raise KeyboardInterrupt)
       (fun _ => M.ret tt))
    (M.backend Close).

(** [pipeline = FinalWorkingPipeline(); pipeline.run_pipeline()]. *)
Definition main (n : nat) : M.t Self unit :=
  init ;;
  run_pipeline n.

End Loop.

End FinalWorkingPipeline.

(** ** [dashboard/resilient_pipeline.py] *)

Module ResilientPipeline.

Record Stats : Type := mk_stats {
  total_readings : Z;
  anomalies_detected : Z;
  db_saves : Z;
  errors : Z;
  start_time : datetime
}.

Record Self : Type := mk_self {
  world : World;
  stats : Stats;
  db_connected : bool
}.

#[export] Instance self_world : M.HasWorld Self := {|
  M.world_of := world;
  M.with_world := fun w s =>
    {| world := w; stats := stats s; db_connected := db_connected s |}
|}.

Definition with_stats (f : Stats -> Stats) : M.t Self unit :=
  M.modify (fun s =>
    {| world := world s; stats := f (stats s);
       db_connected := db_connected s |}).

Definition bump_total_readings : M.t Self unit :=
  with_stats (fun st =>
    {| total_readings := total_readings st + 1;
       anomalies_detected := anomalies_detected st;
       db_saves := db_saves st; errors := errors st;
       start_time := start_time st |}).

Definition bump_anomalies_detected : M.t Self unit :=
  with_stats (fun st =>
    {| total_readings := total_readings st;
       anomalies_detected := anomalies_detected st + 1;
       db_saves := db_saves st; errors := errors st;
       start_time := start_time st |}).

Definition bump_db_saves : M.t Self unit :=
  with_stats (fun st =>
    {| total_readings := total_readings st;
       anomalies_detected := anomalies_detected st;
       db_saves := db_saves st + 1; errors := errors st;
       start_time := start_time st |}).

Definition bump_errors : M.t Self unit :=
  with_stats (fun st =>
    {| total_readings := total_readings st;
       anomalies_detected := anomalies_detected st;
       db_saves := db_saves st; errors := errors st + 1;
       start_time := start_time st |}).

Definition insert_reading (reading : Reading) (prediction : Z) : statement :=
  InsertReading (sensor_id reading) (timestamp reading) (temperature reading)
    (humidity reading) (actual_anomaly reading) prediction.

Definition insert_alert (reading : Reading) : statement :=
  InsertAlert (sensor_id reading) (timestamp reading) (temperature reading)
    (humidity reading) "ML_DETECTED" None.

Definition save_to_database (reading : Reading) (prediction : Z)
  : M.t Self bool :=
  self <- M.get ;;
  if negb (db_connected self) then M.ret false
  else
    M.try_except is_Exception
      (M.backend (Execute (insert_reading reading prediction)) ;;
       (if Z.eqb prediction (-1)
        then M.backend (Execute (insert_alert reading))
        else M.ret tt) ;;
       M.backend Commit ;;
       bump_db_saves ;;
       M.ret true)
      (fun _ => bump_errors ;; M.ret false).

Definition file_data (reading : Reading) (prediction : Z) : json_data :=
  {| j_sensor_id := sensor_id reading;
     j_timestamp := isoformat (timestamp reading);
     j_temperature := temperature reading;
     j_humidity := humidity reading;
     j_ml_prediction := prediction;
     j_actual_anomaly := actual_anomaly reading;
     j_severity := None;
     j_processing_time := None |}.

Definition bronze_file (t : datetime) : string :=
  "../data/bronze/sensor_data_" +:+ strftime_hour t +:+ ".jsonl".

Definition gold_file (t : datetime) : string :=
  "../data/gold/anomalies_" +:+ strftime_hour t +:+ ".jsonl".

Definition silver_file (t : datetime) : string :=
  "../data/silver/normal_data_" +:+ strftime_hour t +:+ ".jsonl".

Definition save_to_local_files (reading : Reading) (prediction : Z)
  : M.t Self bool :=
  M.try_except is_Exception
    (M.backend (MakeDirs "../data/bronze") ;;
     M.backend (MakeDirs "../data/silver") ;;
     M.backend (MakeDirs "../data/gold") ;;
     let data := file_data reading prediction in
     t <- M.clock ;;
     M.backend (WriteFile (bronze_file t) Append data) ;;
     (if Z.eqb prediction (-1)
      then M.backend (WriteFile (gold_file t) Append data)
      else M.backend (WriteFile (silver_file t) Append data)) ;;
     M.ret true)
    (fun _ => M.ret false).

Definition log_metric (metric_name : string) (value : float)
  (sensor : option string) : M.t Self unit :=
  self <- M.get ;;
  if negb (db_connected self) then M.ret tt
  else
    M.try_except is_Exception
      (M.backend (Execute (InsertMetric metric_name value sensor)) ;;
       M.backend Commit)
      (fun _ => M.ret tt).

(** The body of the [for] loop of [run_pipeline] from the two saves on;
    [sensor_id] there is the sensor of the reading. *)
Definition process_reading (reading : Reading) (prediction : Z)
  : M.t Self unit :=
  db_success <- save_to_database reading prediction ;;
  file_success <- save_to_local_files reading prediction ;;
  bump_total_readings ;;
  log_metric "temperature" (temperature reading) (Some (sensor_id reading)) ;;
  log_metric "humidity" (humidity reading) (Some (sensor_id reading)) ;;
  (if Z.eqb prediction (-1)
   then bump_anomalies_detected ;;
        log_metric "anomaly_detected" 1%float (Some (sensor_id reading))
   else log_metric "normal_reading" 1%float (Some (sensor_id reading))).

End ResilientPipeline.

(** ** [dashboard/working_pipeline.py] *)

Module WorkingPipeline.

(** [conn] and [s3_client] are [false] for [None]; [reading_count] and
    [anomaly_count] are the local counters of [run_pipeline]. *)
Record Self : Type := mk_self {
  world : World;
  conn : bool;
  s3_client : bool;
  reading_count : Z;
  anomaly_count : Z
}.

#[export] Instance self_world : M.HasWorld Self := {|
  M.world_of := world;
  M.with_world := fun w s =>
    {| world := w; conn := conn s; s3_client := s3_client s;
       reading_count := reading_count s; anomaly_count := anomaly_count s |}
|}.

Definition sensors : list string :=
  ["sensor_001"; "sensor_002"; "sensor_003"; "sensor_004"; "sensor_005"].

Definition set_conn (c : bool) : M.t Self unit :=
  M.modify (fun s =>
    {| world := world s; conn := c; s3_client := s3_client s;
       reading_count := reading_count s; anomaly_count := anomaly_count s |}).

Definition set_s3_client (c : bool) : M.t Self unit :=
  M.modify (fun s =>
    {| world := world s; conn := conn s; s3_client := c;
       reading_count := reading_count s; anomaly_count := anomaly_count s |}).

Definition setup_database : M.t Self unit :=
  M.try_except is_Exception
    (M.backend Connect ;;
     set_conn true ;;
     M.backend (Execute (CreateTable "sensor_readings")) ;;
     M.backend (Execute (CreateTable "anomaly_alerts")) ;;
     M.backend Commit)
    (fun _ => set_conn false).

Definition setup_minio : M.t Self unit :=
  M.try_except is_Exception
    (set_s3_client true ;;
     M.backend ListBuckets)
    (fun _ => set_s3_client false).

(** The two connection set-ups that end [__init__]; they run once
    [load_model] has returned.  The whole of [__init__], with [load_model],
    is [WorkingStartup.init]. *)
Definition init : M.t Self unit :=
  setup_database ;;
  setup_minio.

(** The dict has no ['severity'] key in this variant. *)
Definition generate_sensor_reading (sensor : string) : M.t Self Reading :=
  x <- M.next_sample ;;
  M.ret {| sensor_id := sensor;
           timestamp := s_timestamp x;
           temperature := s_temperature x;
           humidity := s_humidity x;
           actual_anomaly := s_is_anomaly x;
           severity := "" |}.

Definition object_data (reading : Reading) (prediction : Z) : json_data :=
  {| j_sensor_id := sensor_id reading;
     j_timestamp := isoformat (timestamp reading);
     j_temperature := temperature reading;
     j_humidity := humidity reading;
     j_ml_prediction := prediction;
     j_actual_anomaly := actual_anomaly reading;
     j_severity := None;
     j_processing_time := None |}.

Definition bronze_key (reading : Reading) (t : datetime) : string :=
  "raw_data/" +:+ sensor_id reading +:+ "/" +:+ strftime_path_hour t
    +:+ "/" +:+ epoch_seconds t +:+ ".json".

Definition gold_key (reading : Reading) (t : datetime) : string :=
  "anomalies/" +:+ sensor_id reading +:+ "/" +:+ strftime_path_day t
    +:+ "/" +:+ epoch_seconds t +:+ ".json".

Definition silver_key (reading : Reading) (t : datetime) : string :=
  "processed_data/" +:+ sensor_id reading +:+ "/" +:+ strftime_path_hour t
    +:+ "/" +:+ epoch_seconds t +:+ ".json".

Definition save_to_minio (reading : Reading) (prediction : Z)
  : M.t Self unit :=
  self <- M.get ;;
  if negb (s3_client self) then M.ret tt
  else
    M.try_except is_Exception
      (let data := object_data reading prediction in
       t <- M.clock ;;
       M.backend (PutObject "bronze" (bronze_key reading t) data) ;;
       (if Z.eqb prediction (-1)
        then M.backend (PutObject "gold" (gold_key reading t) data)
        else M.backend (PutObject "silver" (silver_key reading t) data)))
      (fun _ => M.ret tt).

Definition insert_reading (reading : Reading) (prediction : Z) : statement :=
  InsertReading (sensor_id reading) (timestamp reading) (temperature reading)
    (humidity reading) (actual_anomaly reading) prediction.

Definition insert_alert (reading : Reading) : statement :=
  InsertAlert (sensor_id reading) (timestamp reading) (temperature reading)
    (humidity reading) "ML_DETECTED" None.

Definition save_to_database (reading : Reading) (prediction : Z)
  : M.t Self unit :=
  self <- M.get ;;
  if negb (conn self) then M.ret tt
  else
    M.try_except is_Exception
      (M.backend (Execute (insert_reading reading prediction)) ;;
       (if Z.eqb prediction (-1)
        then M.backend (Execute (insert_alert reading))
        else M.ret tt) ;;
       M.backend Commit)
      (fun _ => M.ret tt).

Definition bump_reading_count : M.t Self unit :=
  M.modify (fun s =>
    {| world := world s; conn := conn s; s3_client := s3_client s;
       reading_count := reading_count s + 1;
       anomaly_count := anomaly_count s |}).

Definition bump_anomaly_count : M.t Self unit :=
  M.modify (fun s =>
    {| world := world s; conn := conn s; s3_client := s3_client s;
       reading_count := reading_count s;
       anomaly_count := anomaly_count s + 1 |}).

Section Loop.

Variable predict : list Reading -> result (list Z).

Definition classify (reading : Reading) : M.t Self Z :=
  predictions <- M.lift (predict [reading]) ;;
  match predictions with
  | p :: _ => M.ret p
  | [] => M.raise IndexError
  end.

Definition process_sensor (sensor : string) : M.t Self unit :=
  reading <- generate_sensor_reading sensor ;;
  prediction <- classify reading ;;
  save_to_minio reading prediction ;;
  save_to_database reading prediction ;;
  bump_reading_count ;;
  (if Z.eqb prediction (-1) then bump_anomaly_count else M.ret tt).

Definition cycle : M.t Self unit :=
  M.for_each sensors process_sensor.

Definition close_connection : M.t Self unit :=
  self <- M.get ;;
  if conn self then M.backend Close else M.ret tt.

(** [run_pipeline], interrupted from the keyboard during the sleep that
    follows the [n]-th cycle. *)
Definition run_pipeline (n : nat) : M.t Self unit :=
  M.try_finally
    (M.try_except is_KeyboardInterrupt
       (M.iterate n cycle ;; M.raise KeyboardInterrupt)
       (fun _ => M.ret tt))
    close_connection.

Definition main (n : nat) : M.t Self unit :=
  init ;;
  run_pipeline n.

End Loop.

End WorkingPipeline.

(** ** Requests made between two states *)

(** [events_since before after] is the part of the trace [after] that was
    added to the trace [before] (most recent first). *)
Definition events_since (before after : list (op * bool)) : list (op * bool) :=
  take (length after - length before) after.

(** A request was made, whatever its outcome. *)
Definition attempted (o : op) (tr : list (op * bool)) : Prop :=
  exists ok, In (o, ok) tr.

(** ** What is known of scikit-learn's [StandardScaler] *)

Module StandardScaler.



End StandardScaler.

(** ** Fixtures: concrete estimators, readings and worlds *)

Module Fixtures.

(** Stand-ins for the estimators: a scaler and a model that remember
    whether they were fitted, a scaler that rejects an empty array and
    otherwise leaves the features as they are, and a model that flags a
    row whose first feature exceeds 50. *)
Definition scaler_fit_transform (s : bool) (X : AnomalyDetector.ndarray)
  : bool * result AnomalyDetector.ndarray :=
  match X with
  | [] => (s, Raise ValueError)
  | _ => (true, Ok X)
  end.


Definition scaler_transform (s : bool) (X : AnomalyDetector.ndarray)
  : result AnomalyDetector.ndarray :=
  if s then Ok X else Raise NotFittedError.

Definition model_fit (m : bool) (X : AnomalyDetector.ndarray)
  : bool * result unit :=
  (true, Ok tt).

Definition score_row (row : list float) : Z :=
  match row with
  | t :: _ => if PrimFloat.ltb 50%float t then -1 else 1
  | [] => 1
  end.

Definition model_predict (m : bool) (X : AnomalyDetector.ndarray)
  : result (list Z) :=
  if m then Ok (map score_row X) else Raise NotFittedError.

Definition untrained : AnomalyDetector.t bool bool :=
  AnomalyDetector.init bool bool false false.

Definition trained : AnomalyDetector.t bool bool :=
  AnomalyDetector.mk true true true.

Definition predict (self : AnomalyDetector.t bool bool)
  : list Reading -> result (list Z) :=
  AnomalyDetector.predict scaler_transform model_predict self.

Definition noon : datetime :=
  {| strftime_compact := "20240101_120000";
     strftime_hour := "20240101_12";
     strftime_path_hour := "2024/01/01/12";
     strftime_path_day := "2024/01/01";
     isoformat := "2024-01-01T12:00:00";
     epoch_seconds := "1704110400" |}.

Definition reading_of (t h : float) : Reading :=
  {| sensor_id := "sensor_001"; timestamp := noon;
     temperature := t; humidity := h;
     actual_anomaly := false; severity := "LOW" |}.

Definition normal_reading : Reading := reading_of 22%float 55%float.
Definition hot_reading : Reading := reading_of 95%float 8%float.
Definition negative_humidity_reading : Reading :=
  reading_of 10%float (-5)%float.


(** An empty file system in which every path can be written. *)
Definition empty_fs : AnomalyDetector.FS bool bool :=
  {| AnomalyDetector.files := ∅; AnomalyDetector.writable := fun _ => true |}.

(** A random source that alternates normal and hot samples. *)
Definition sample_at (n : nat) : Sample :=
  if Nat.even n
  then {| s_timestamp := noon; s_temperature := 22%float;
          s_humidity := 55%float; s_is_anomaly := false;
          s_severity := "LOW" |}
  else {| s_timestamp := noon; s_temperature := 95%float;
          s_humidity := 8%float; s_is_anomaly := true;
          s_severity := "MEDIUM" |}.

(** A world in which exactly the requests listed in [failing] fail. *)
Definition world_failing (failing : list nat) : World :=
  {| faults := fun n => existsb (Nat.eqb n) failing;
     trace := [];
     samples := sample_at;
     drawn := 0%nat;
     now := noon |}.

Definition final_self (failing : list nat) : FinalWorkingPipeline.Self :=
  {| FinalWorkingPipeline.world := world_failing failing;
     FinalWorkingPipeline.stats :=
       {| FinalWorkingPipeline.total_readings := 0;
          FinalWorkingPipeline.anomalies_detected := 0;
          FinalWorkingPipeline.files_created := 0;
          FinalWorkingPipeline.start_time := noon |} |}.

Definition resilient_self (failing : list nat) (connected : bool)
  : ResilientPipeline.Self :=
  {| ResilientPipeline.world := world_failing failing;
     ResilientPipeline.stats :=
       {| ResilientPipeline.total_readings := 0;
          ResilientPipeline.anomalies_detected := 0;
          ResilientPipeline.db_saves := 0;
          ResilientPipeline.errors := 0;
          ResilientPipeline.start_time := noon |};
     ResilientPipeline.db_connected := connected |}.

Definition working_self (failing : list nat) : WorkingPipeline.Self :=
  {| WorkingPipeline.world := world_failing failing;
     WorkingPipeline.conn := false;
     WorkingPipeline.s3_client := false;
     WorkingPipeline.reading_count := 0;
     WorkingPipeline.anomaly_count := 0 |}.

End Fixtures.

(** ** Loading or training the model at startup
       ([load_model] and [train_model] of [final_working_pipeline.py]) *)

Module ModelStartup.

Section Estimators.

Variables Scaler Model : Type.
Variable scaler_fit_transform :
  Scaler -> AnomalyDetector.ndarray -> Scaler * result AnomalyDetector.ndarray.
Variable model_fit :
  Model -> AnomalyDetector.ndarray -> Model * result unit.

Definition model_path : string := "ml-models/anomaly_model.pkl".

(** [train_model], given the records its loop has drawn from the random
    source; it returns the file system and the detector as the call leaves
    them. *)
Definition train_model (fs : AnomalyDetector.FS Scaler Model)
  (detector : AnomalyDetector.t Scaler Model) (training_data : list Reading)
  : AnomalyDetector.FS Scaler Model * AnomalyDetector.t Scaler Model
    * result unit :=
  let (detector1, trained) :=
    AnomalyDetector.train scaler_fit_transform model_fit detector
      training_data in
  match trained with
  | Raise e => (fs, detector1, Raise e)
  | Ok _ =>
      match AnomalyDetector.save_model fs detector1 model_path with
      | Ok fs1 => (fs1, detector1, Ok tt)
      | Raise e => (fs, detector1, Raise e)
      end
  end.

(** [load_model]: [try: self.detector.load_model(...)
    except Exception: self.train_model()]. *)
Definition load_model (fs : AnomalyDetector.FS Scaler Model)
  (detector : AnomalyDetector.t Scaler Model) (training_data : list Reading)
  : AnomalyDetector.FS Scaler Model * AnomalyDetector.t Scaler Model
    * result unit :=
  let (detector1, loaded) :=
    AnomalyDetector.load_model fs detector model_path in
  match loaded with
  | Ok _ => (fs, detector1, Ok tt)
  | Raise e =>
      if is_Exception e then train_model fs detector1 training_data
      else (fs, detector1, Raise e)
  end.

End Estimators.

Arguments train_model {Scaler Model}.
Arguments load_model {Scaler Model}.

End ModelStartup.

(** ** Startup of [dashboard/working_pipeline.py] *)

Module WorkingStartup.

Section Estimators.

Variables Scaler Model : Type.
Variable scaler_fit_transform :
  Scaler -> AnomalyDetector.ndarray -> Scaler * result AnomalyDetector.ndarray.
Variable model_fit :
  Model -> AnomalyDetector.ndarray -> Model * result unit.

Definition model_path : string := "../ml-models/anomaly_model.pkl".

(** [train_model], given the records [generate_training_data] has drawn
    from the random source. *)
Definition train_model (fs : AnomalyDetector.FS Scaler Model)
  (detector : AnomalyDetector.t Scaler Model) (training_data : list Reading)
  : AnomalyDetector.FS Scaler Model * AnomalyDetector.t Scaler Model
    * result unit :=
  let (detector1, trained) :=
    AnomalyDetector.train scaler_fit_transform model_fit detector
      training_data in
  match trained with
  | Raise e => (fs, detector1, Raise e)
  | Ok _ =>
      match AnomalyDetector.save_model fs detector1 model_path with
      | Ok fs1 => (fs1, detector1, Ok tt)
      | Raise e => (fs, detector1, Raise e)
      end
  end.

(** [load_model]: [try: self.detector.load_model(...) except:
    self.train_model()]; the bare [except] catches every exception. *)
Definition load_model (fs : AnomalyDetector.FS Scaler Model)
  (detector : AnomalyDetector.t Scaler Model) (training_data : list Reading)
  : AnomalyDetector.FS Scaler Model * AnomalyDetector.t Scaler Model
    * result unit :=
  let (detector1, loaded) :=
    AnomalyDetector.load_model fs detector model_path in
  match loaded with
  | Ok _ => (fs, detector1, Ok tt)
  | Raise _ => train_model fs detector1 training_data
  end.

(** [__init__]: a new detector, [load_model], then the two connection
    set-ups; an exception of [load_model] leaves [__init__] before any
    backend is contacted.  The result is the file system, the detector and
    the pipeline object as the call leaves them, with its outcome. *)
Definition init (fresh_model : Model) (fresh_scaler : Scaler)
  (training_data : list Reading) (fs : AnomalyDetector.FS Scaler Model)
  (self : WorkingPipeline.Self)
  : AnomalyDetector.FS Scaler Model * AnomalyDetector.t Scaler Model
    * (result unit * WorkingPipeline.Self) :=
  let '(fs1, detector, loaded) :=
    load_model fs (AnomalyDetector.init Scaler Model fresh_model fresh_scaler)
      training_data in
  match loaded with
  | Raise e => (fs1, detector, (Raise e, self))
  | Ok _ => (fs1, detector, WorkingPipeline.init self)
  end.

End Estimators.

Arguments train_model {Scaler Model}.
Arguments load_model {Scaler Model}.
Arguments init {Scaler Model}.

End WorkingStartup.

(** ** Startup of [dashboard/resilient_pipeline.py] *)

Module ResilientStartup.

(** The pipeline object while [__init__] runs: [assigned] tells whether
    the attribute [db_connected] has been assigned yet. *)
Record Object : Type := mk_object {
  self : ResilientPipeline.Self;
  assigned : bool
}.

#[export] Instance object_world : M.HasWorld Object := {|
  M.world_of := fun o => ResilientPipeline.world (self o);
  M.with_world := fun w o =>
    {| self := {| ResilientPipeline.world := w;
                  ResilientPipeline.stats := ResilientPipeline.stats (self o);
                  ResilientPipeline.db_connected :=
                    ResilientPipeline.db_connected (self o) |};
       assigned := assigned o |}
|}.

(** Reading [self.db_connected]: an attribute that was never assigned
    raises [AttributeError]. *)
Definition read_db_connected : M.t Object bool :=
  fun o =>
    if assigned o then (Ok (ResilientPipeline.db_connected (self o)), o)
    else (Raise AttributeError, o).

Definition assign_db_connected (b : bool) : M.t Object unit :=
  M.modify (fun o =>
    {| self := {| ResilientPipeline.world := ResilientPipeline.world (self o);
                  ResilientPipeline.stats := ResilientPipeline.stats (self o);
                  ResilientPipeline.db_connected := b |};
       assigned := true |}).

(** The test [if not self.db_connected] comes before the [try]. *)
Definition log_system_event (event_type status message : string)
  : M.t Object unit :=
  connected <- read_db_connected ;;
  if negb connected then M.ret tt
  else
    M.try_except is_Exception
      (M.backend (Execute (InsertSystemEvent event_type status message)) ;;
       M.backend Commit)
      (fun _ => M.ret tt).

Definition tables : list string :=
  ["sensor_readings"; "anomaly_alerts"; "system_events"; "pipeline_metrics";
   "pipeline_status"].

Definition setup_database : M.t Object bool :=
  M.try_except is_Exception
    (M.backend Connect ;;
     M.for_each tables (fun name => M.backend (Execute (CreateTable name))) ;;
     M.backend Commit ;;
     log_system_event "database_connection" "success"
       "All tables created successfully" ;;
     M.ret true)
    (fun _ => M.ret false).

Definition reset_stats : M.t Object unit :=
  start <- M.clock ;;
  M.modify (fun o =>
    {| self :=
         {| ResilientPipeline.world := ResilientPipeline.world (self o);
            ResilientPipeline.stats :=
              {| ResilientPipeline.total_readings := 0;
                 ResilientPipeline.anomalies_detected := 0;
                 ResilientPipeline.db_saves := 0;
                 ResilientPipeline.errors := 0;
                 ResilientPipeline.start_time := start |};
            ResilientPipeline.db_connected :=
              ResilientPipeline.db_connected (self o) |};
       assigned := assigned o |}).

(** [__init__] once [load_model] has returned:
    [self.db_connected = self.setup_database()], then the statistics. *)
Definition init : M.t Object unit :=
  connected <- setup_database ;;
  assign_db_connected connected ;;
  reset_stats.

Section Serve.

(** The [try] statement of [run_pipeline], with its loop, handlers and
    [finally] clause. *)
Variable serve : M.t Object unit.

Definition run_pipeline : M.t Object unit :=
  connected <- read_db_connected ;;
  if negb connected then M.ret tt
  else serve.

Definition main : M.t Object unit :=
  init ;;
  run_pipeline.

End Serve.

End ResilientStartup.

(** ** Further observations on a trace *)

(** The sensors of the readings whose insertion was requested, most recent
    first. *)
Definition inserted_sensors (tr : list (op * bool)) : list string :=
  omap (fun e => match fst e with
                 | Execute (InsertReading sensor _ _ _ _ _) => Some sensor
                 | _ => None
                 end) tr.

Definition is_database_request (e : op * bool) : bool :=
  match fst e with
  | Connect | Execute _ | Commit | Close => true
  | _ => false
  end.

Definition is_put_into (bucket : string) (e : op * bool) : bool :=
  match e with
  | (PutObject b _ _, true) => String.eqb b bucket
  | _ => false
  end.

(** A fresh [ResilientPipeline] object, before [__init__] has assigned
    anything, in a world where the requests listed in [failing] fail. *)
Definition fresh_resilient_object (failing : list nat)
  : ResilientStartup.Object :=
  {| ResilientStartup.self := Fixtures.resilient_self failing false;
     ResilientStartup.assigned := false |}.

(** ** The claims that the code does not satisfy, as they are stated *)

Local Open Scope list_scope.

(** The number of readings in a trace that were classified anomalous. *)
Definition anomalies_in (tr : list (op * bool)) : Z :=
  Z.of_nat (length (List.filter (Z.eqb ANOMALOUS) (dispatched tr))).

Module Stated.

(** Every dispatched reading reaches bronze, exactly one of silver and
    gold (silver when normal, gold when anomalous), and an alert record is
    produced exactly when gold is written
    ([final_working_pipeline.py]). *)
Definition every_reading_reaches_its_tiers : Prop :=
  forall (r : Reading) (p : Z) (s : FinalWorkingPipeline.Self),
    p = NORMAL \/ p = ANOMALOUS ->
    let D := events_since
               (trace (FinalWorkingPipeline.world s))
               (trace (FinalWorkingPipeline.world
                  (M.exec (FinalWorkingPipeline.process_reading r p) s))) in
    FinalWorkingPipeline.writes_to bronze D = 1%nat
    /\ FinalWorkingPipeline.writes_to silver D
       = (if Z.eqb p ANOMALOUS then 0 else 1)%nat
    /\ FinalWorkingPipeline.writes_to gold D
       = (if Z.eqb p ANOMALOUS then 1 else 0)%nat
    /\ alerts_produced D = FinalWorkingPipeline.writes_to gold D.


(** A failed connection to PostgreSQL at startup ends the process with
    [SystemExit] ([dashboard/working_pipeline.py]). *)
Definition working_pipeline_exits_without_database : Prop :=
  forall (predict : list Reading -> result (list Z)) (n : nat)
         (s : WorkingPipeline.Self),
    faults (WorkingPipeline.world s)
      (length (trace (WorkingPipeline.world s))) = true ->
    exists code,
      M.outcome (WorkingPipeline.main predict n) s = Raise (SystemExit code).


End Stated.

(** ** Proof automation *)

(** The part of a trace that precedes a known tail. *)
Ltac prefix_of l tr :=
  lazymatch l with
  | tr => constr:(@nil (op * bool))
  | ?x :: ?l' => let p := prefix_of l' tr in constr:(x :: p)
  end.

(** Case analysis on the answers of the fault oracle [f]. *)
Ltac case_faults f :=
  repeat match goal with
    | |- context [f ?n] => destruct (f n) eqn:?; cbn
    end.

Ltac give_prefix :=
  lazymatch goal with
  | |- exists D, ?L = D ++ ?t /\ @?P D =>
      let pre := prefix_of L t in exists pre
  end.

Ltac attempt_found :=
  unfold attempted; eexists; cbn;
  repeat first [left; reflexivity | right].

(** * Properties of the anomaly detector *)

(** A float above zero is not equal to zero, so the guard of
    [extract_features] keeps the division from raising. *)
Lemma positive_float_nonzero (h : float) :
  PrimFloat.ltb 0%float h = true -> PrimFloat.eqb h 0%float = false.
Proof.
  rewrite FloatAxioms.ltb_spec, FloatAxioms.eqb_spec.
  change (Prim2SF 0%float) with (S754_zero false).
  destruct (Prim2SF h) as [s | s | | s m e]; simpl; try discriminate.
  - unfold SFltb, SFeqb; simpl. destruct s; [discriminate | reflexivity].
  - unfold SFltb, SFeqb; simpl. destruct s; [discriminate | reflexivity].
Qed.

Lemma feature_row_total (record : Reading) :
  AnomalyDetector.feature_row record = Ok (AnomalyDetector.features_of record).
Proof.
  unfold AnomalyDetector.feature_row, AnomalyDetector.features_of, truediv.
  destruct (PrimFloat.ltb 0%float (humidity record)) eqn:Hpos; simpl.
  - rewrite (positive_float_nonzero _ Hpos). reflexivity.
  - reflexivity.
Qed.

Lemma extract_features_rows (data : list Reading) :
  AnomalyDetector.extract_features data
  = Ok (map AnomalyDetector.features_of data).
Proof.
  induction data as [| record rest IH]; simpl.
  - reflexivity.
  - rewrite feature_row_total, IH. reflexivity.
Qed.

(** C5 (as amended): for every sequence of readings, [extract_features]
    returns, without raising, one row per reading, in order, holding the
    temperature, the humidity, and the ratio temperature / humidity when the
    humidity is greater than zero and [0] otherwise (zero, negative or NaN
    humidity). *)
Theorem extract_features_guarded (data : list Reading) :
  exists rows,
    AnomalyDetector.extract_features data = Ok rows
    /\ length rows = length data
    /\ forall (i : nat) (record : Reading),
         data !! i = Some record ->
         rows !! i
         = Some [temperature record; humidity record;
                 if PrimFloat.ltb 0%float (humidity record)
                 then PrimFloat.div (temperature record) (humidity record)
                 else 0%float].
Proof.
  exists (map AnomalyDetector.features_of data).
  split; [apply extract_features_rows |].
  split; [apply length_map |].
  intros i record. revert i.
  induction data as [| first rest IH]; intros [| i] Hi;
    cbn in *; try discriminate.
  - injection Hi as ->. reflexivity.
  - apply IH. exact Hi.
Qed.

(** C5 as stated fails: with humidity [-5] and temperature [10] the third
    feature is [0], not the ratio [-2] that the claim gives for every
    humidity other than zero. *)
Lemma extract_features_negative_humidity :
  AnomalyDetector.extract_features [Fixtures.negative_humidity_reading]
  = Ok [[10%float; (-5)%float; 0%float]]
  /\ AnomalyDetector.spec_features_of Fixtures.negative_humidity_reading
     = [10%float; (-5)%float; (-2)%float]
  /\ AnomalyDetector.extract_features [Fixtures.negative_humidity_reading]
     <> Ok [AnomalyDetector.spec_features_of Fixtures.negative_humidity_reading].
Proof.
  split; [vm_compute; reflexivity |].
  split; [vm_compute; reflexivity |].
  intros H.
  pose (third_is_ratio := fun r : result AnomalyDetector.ndarray =>
          match r with
          | Ok [[_; _; x]] => PrimFloat.eqb x (-2)%float
          | _ => false
          end).
  assert (Heq : third_is_ratio
                  (AnomalyDetector.extract_features
                     [Fixtures.negative_humidity_reading])
                = third_is_ratio
                    (Ok [AnomalyDetector.spec_features_of
                           Fixtures.negative_humidity_reading])).
  { rewrite H. reflexivity. }
  vm_compute in Heq. discriminate.
Qed.



Section DetectorProperties.

Context {Scaler Model : Type}.
Variable scaler_fit_transform :
  Scaler -> AnomalyDetector.ndarray -> Scaler * result AnomalyDetector.ndarray.
Variable scaler_transform :
  Scaler -> AnomalyDetector.ndarray -> result AnomalyDetector.ndarray.
Variable model_fit :
  Model -> AnomalyDetector.ndarray -> Model * result unit.
Variable model_predict :
  Model -> AnomalyDetector.ndarray -> result (list Z).

Abbreviation detector := (AnomalyDetector.t Scaler Model).
Abbreviation predict := (AnomalyDetector.predict scaler_transform model_predict).
Abbreviation predict_trained :=
  (AnomalyDetector.predict_trained scaler_transform model_predict).
Abbreviation train := (AnomalyDetector.train scaler_fit_transform model_fit).

(** C4: on a detector that is not trained, [predict] returns, for a
    sequence of readings of any length, a list of that length whose every
    element is [NORMAL]; it does not raise. *)
Theorem predict_untrained (self : detector) (data : list Reading) :
  AnomalyDetector.is_trained self = false ->
  exists predictions,
    predict self data = Ok predictions
    /\ length predictions = length data
    /\ Forall (fun p => p = NORMAL) predictions.
Proof.
  intros Huntrained. exists (repeat 0 (length data)).
  unfold AnomalyDetector.predict. rewrite Huntrained. simpl.
  split; [reflexivity |]. split.
  - apply repeat_length.
  - induction (length data); simpl; constructor; auto.
Qed.

(** The outcome of [predict] depends on the detector only through its
    three attributes. *)
Lemma predict_ext (a b : detector) (data : list Reading) :
  AnomalyDetector.model a = AnomalyDetector.model b ->
  AnomalyDetector.scaler a = AnomalyDetector.scaler b ->
  AnomalyDetector.is_trained a = AnomalyDetector.is_trained b ->
  predict a data = predict b data.
Proof.
  destruct a, b; simpl. intros -> -> ->. reflexivity.
Qed.

Lemma load_after_save (fs fs' : AnomalyDetector.FS Scaler Model)
  (self other : detector) (path : string) :
  AnomalyDetector.save_model fs self path = Ok fs' ->
  AnomalyDetector.load_model fs' other path
  = ({| AnomalyDetector.model := AnomalyDetector.model self;
        AnomalyDetector.scaler := AnomalyDetector.scaler self;
        AnomalyDetector.is_trained := true |}, Ok tt).
Proof.
  unfold AnomalyDetector.save_model, AnomalyDetector.load_model.
  destruct (AnomalyDetector.writable fs path); [| discriminate].
  intros [= <-]. simpl. rewrite lookup_insert_eq. reflexivity.
Qed.

(** C3: a trained detector saved to a path and loaded back from it (into
    any detector object) predicts, on every sequence of readings, what it
    predicted before the save. *)
Theorem save_load_round_trip (fs fs' : AnomalyDetector.FS Scaler Model)
  (self other : detector) (path : string) (X : list Reading) :
  AnomalyDetector.is_trained self = true ->
  AnomalyDetector.save_model fs self path = Ok fs' ->
  exists loaded,
    AnomalyDetector.load_model fs' other path = (loaded, Ok tt)
    /\ predict loaded X = predict self X.
Proof.
  intros Htrained Hsave. eexists. split.
  - exact (load_after_save _ _ _ _ _ Hsave).
  - apply predict_ext; simpl; auto.
Qed.

(** C10: a load that succeeds leaves [is_trained] true, whatever detector
    the file was saved from: the file holds the model and the scaler only,
    so it is the same for a trained and an untrained detector, and after
    the load [predict] takes the path of a trained detector. *)
Theorem load_model_marks_trained (fs : AnomalyDetector.FS Scaler Model)
  (other loaded : detector) (path : string) :
  AnomalyDetector.load_model fs other path = (loaded, Ok tt) ->
  AnomalyDetector.is_trained loaded = true
  /\ (forall X, predict loaded X = predict_trained loaded X)
  /\ (forall fs0 saved,
        AnomalyDetector.save_model fs0 saved path = Ok fs ->
        AnomalyDetector.model loaded = AnomalyDetector.model saved
        /\ AnomalyDetector.scaler loaded = AnomalyDetector.scaler saved
        /\ forall flag,
             AnomalyDetector.save_model fs0
               {| AnomalyDetector.model := AnomalyDetector.model saved;
                  AnomalyDetector.scaler := AnomalyDetector.scaler saved;
                  AnomalyDetector.is_trained := flag |} path = Ok fs).
Proof.
  intros Hload.
  assert (Htrained : AnomalyDetector.is_trained loaded = true).
  { unfold AnomalyDetector.load_model in Hload.
    destruct (AnomalyDetector.files fs !! path) as [[m s |] |];
      inversion Hload; reflexivity. }
  split; [exact Htrained |]. split.
  - intros X. unfold AnomalyDetector.predict. rewrite Htrained. reflexivity.
  - intros fs0 saved Hsave.
    rewrite (load_after_save _ _ _ other _ Hsave) in Hload.
    inversion Hload; subst; simpl. repeat split; try reflexivity.
    intros flag. exact Hsave.
Qed.


End DetectorProperties.

Lemma predict_untrained_witness :
  AnomalyDetector.is_trained Fixtures.untrained = false
  /\ exists predictions,
       Fixtures.predict Fixtures.untrained
         [Fixtures.normal_reading; Fixtures.hot_reading] = Ok predictions
       /\ length predictions = 2%nat
       /\ Forall (fun p => p = NORMAL) predictions.
Proof.
  split; [reflexivity |].
  apply (predict_untrained Fixtures.scaler_transform Fixtures.model_predict
           Fixtures.untrained
           [Fixtures.normal_reading; Fixtures.hot_reading]).
  reflexivity.
Defined.

Lemma save_load_round_trip_witness :
  AnomalyDetector.is_trained Fixtures.trained = true
  /\ exists fs',
       AnomalyDetector.save_model Fixtures.empty_fs Fixtures.trained
         "ml-models/anomaly_model.pkl" = Ok fs'
       /\ exists loaded,
            AnomalyDetector.load_model fs' Fixtures.untrained
              "ml-models/anomaly_model.pkl" = (loaded, Ok tt)
            /\ Fixtures.predict loaded [Fixtures.normal_reading; Fixtures.hot_reading]
               = Fixtures.predict Fixtures.trained
                   [Fixtures.normal_reading; Fixtures.hot_reading].
Proof.
  split; [reflexivity |].
  eexists. split; [reflexivity |].
  apply (save_load_round_trip Fixtures.scaler_transform Fixtures.model_predict
           Fixtures.empty_fs _ Fixtures.trained Fixtures.untrained
           "ml-models/anomaly_model.pkl");
    reflexivity.
Defined.

Lemma load_model_marks_trained_witness :
  exists fs loaded,
    AnomalyDetector.save_model Fixtures.empty_fs Fixtures.untrained
      "ml-models/anomaly_model.pkl" = Ok fs
    /\ AnomalyDetector.load_model fs Fixtures.untrained
         "ml-models/anomaly_model.pkl" = (loaded, Ok tt)
    /\ AnomalyDetector.is_trained Fixtures.untrained = false
    /\ AnomalyDetector.is_trained loaded = true
    /\ Fixtures.predict loaded [Fixtures.normal_reading]
       = AnomalyDetector.predict_trained Fixtures.scaler_transform
           Fixtures.model_predict loaded [Fixtures.normal_reading].
Proof.
  eexists. eexists.
  split; [reflexivity |].
  assert (Hload :
    AnomalyDetector.load_model
      {| AnomalyDetector.files :=
           <["ml-models/anomaly_model.pkl" := AnomalyDetector.Pickled false false]>
             (AnomalyDetector.files Fixtures.empty_fs);
         AnomalyDetector.writable := AnomalyDetector.writable Fixtures.empty_fs |}
      Fixtures.untrained "ml-models/anomaly_model.pkl"
    = (AnomalyDetector.mk false false true, Ok tt)).
  { unfold AnomalyDetector.load_model. simpl.
    rewrite lookup_insert_eq. reflexivity. }
  split; [exact Hload |].
  split; [reflexivity |].
  destruct (load_model_marks_trained Fixtures.scaler_transform
              Fixtures.model_predict _ _ _ _ Hload) as (Htrained & Hpath & _).
  split; [exact Htrained | apply Hpath].
Defined.



(** * Properties of the pipelines *)

Lemma events_since_app (D tr : list (op * bool)) :
  events_since tr (D ++ tr) = D.
Proof.
  unfold events_since. rewrite length_app.
  replace (length D + length tr - length tr)%nat with (length D) by lia.
  apply take_app_length.
Qed.

Lemma dispatched_app (D1 D2 : list (op * bool)) :
  dispatched (D1 ++ D2) = dispatched D1 ++ dispatched D2.
Proof. unfold dispatched. apply omap_app. Qed.

Lemma anomalies_in_app (D1 D2 : list (op * bool)) :
  anomalies_in (D1 ++ D2) = anomalies_in D1 + anomalies_in D2.
Proof.
  unfold anomalies_in.
  rewrite dispatched_app, List.filter_app, length_app. lia.
Qed.

Module FinalProofs.
Import FinalWorkingPipeline.

(** What the dispatch of one reading does, for every answer of the fault
    oracle: [Ddb] are the requests of [save_to_database], [Dfs] those of
    [save_to_files]. *)
Lemma dispatch_effect (r : Reading) (p : Z) (s : Self) :
  exists Ddb,
    trace (world (M.exec (save_to_database r p) s)) = Ddb ++ trace (world s)
    /\ exists Dfs,
    trace (world (M.exec (save_to_files r p)
                    (M.exec (save_to_database r p) s)))
    = Dfs ++ trace (world (M.exec (save_to_database r p) s))
    /\ trace (world (M.exec (process_reading r p) s))
       = Dfs ++ Ddb ++ trace (world s)
    /\ M.outcome (save_to_database r p) s = Ok (forallb snd Ddb)
    /\ M.outcome (save_to_files r p) (M.exec (save_to_database r p) s)
       = Ok (forallb snd Dfs)
    /\ M.outcome (process_reading r p) s = Ok tt
    /\ total_readings (stats (M.exec (process_reading r p) s))
       = total_readings (stats s) + 1
    /\ anomalies_detected (stats (M.exec (process_reading r p) s))
       = anomalies_detected (stats s) + (if Z.eqb p (-1) then 1 else 0)
    /\ dispatched (Dfs ++ Ddb) = [p]
    /\ attempted (Execute (insert_reading r p)) Ddb
    /\ attempted (WriteFile (bronze_file r) Truncate
                    (file_data r p (now (world s)))) Dfs
    /\ (writes_to silver (Dfs ++ Ddb) + writes_to gold (Dfs ++ Ddb)
        <= writes_to bronze (Dfs ++ Ddb) <= 1)%nat
    /\ (if Z.eqb p (-1) then writes_to silver (Dfs ++ Ddb)
        else writes_to gold (Dfs ++ Ddb)) = 0%nat
    /\ alerts_produced (Dfs ++ Ddb)
       = (if forallb snd Ddb && Z.eqb p (-1) then 1 else 0)%nat
    /\ (forallb snd Dfs = true ->
        writes_to bronze (Dfs ++ Ddb) = 1%nat
        /\ (writes_to silver (Dfs ++ Ddb) + writes_to gold (Dfs ++ Ddb)
            = 1)%nat).
Proof.
  destruct s as [[f tr sm d n] st].
  unfold M.exec, M.outcome, process_reading, save_to_database, save_to_files,
    bump_total_readings, bump_anomalies_detected, bump_files_created.
  unfold M.try_except, M.bind, M.backend, M.ret, M.clock, M.modify, perform.
  cbn.
  destruct (Z.eqb p (-1)) eqn:Hp; cbn.
  all: case_faults f.
  all: give_prefix; split; [reflexivity |].
  all: give_prefix; split; [reflexivity |].
  all: repeat split; try reflexivity; try attempt_found; try discriminate;
    try (cbn; lia); try (vm_compute; lia).
Qed.

(** C6: for every reading, prediction and answer of the fault oracle, each
    of the two saves returns normally, with [True] exactly when every request
    it made succeeded; the database save requests the insertion of the
    reading, and the file save, which runs in the state the database save
    left whatever that save returned, requests the bronze file; the
    dispatch as a whole returns normally and has made the requests of
    both. *)
Theorem sinks_always_attempted (r : Reading) (p : Z) (s : Self) :
  exists Ddb Dfs,
    trace (world (M.exec (save_to_database r p) s)) = Ddb ++ trace (world s)
    /\ M.outcome (save_to_database r p) s = Ok (forallb snd Ddb)
    /\ attempted (Execute (insert_reading r p)) Ddb
    /\ trace (world (M.exec (save_to_files r p)
                       (M.exec (save_to_database r p) s)))
       = Dfs ++ trace (world (M.exec (save_to_database r p) s))
    /\ M.outcome (save_to_files r p) (M.exec (save_to_database r p) s)
       = Ok (forallb snd Dfs)
    /\ attempted (WriteFile (bronze_file r) Truncate
                    (file_data r p (now (world s)))) Dfs
    /\ M.outcome (process_reading r p) s = Ok tt
    /\ trace (world (M.exec (process_reading r p) s))
       = Dfs ++ Ddb ++ trace (world s).
Proof.
  destruct (dispatch_effect r p s)
    as (Ddb & H1 & Dfs & H2 & H3 & H4 & H5 & H6 & _ & _ & _ & H7 & H8 & _).
  exists Ddb, Dfs. repeat split; assumption.
Qed.

(** Which tiers a dispatch writes and whether it produces an alert, for
    every answer of the fault oracle. *)
Lemma dispatch_tiers (r : Reading) (p : Z) (s : Self) :
  exists D,
    trace (world (M.exec (process_reading r p) s)) = D ++ trace (world s)
    /\ exists db_success file_success bronze_success,
         M.outcome (save_to_database r p) s = Ok db_success
         /\ M.outcome (save_to_files r p) (M.exec (save_to_database r p) s)
            = Ok file_success
         /\ In (WriteFile (bronze_file r) Truncate
                  (file_data r p (now (world s))), bronze_success) D
         /\ (file_success = true -> bronze_success = true)
         /\ writes_to bronze D = (if bronze_success then 1 else 0)%nat
         /\ writes_to silver D
            = (if file_success && negb (Z.eqb p (-1)) then 1 else 0)%nat
         /\ writes_to gold D
            = (if file_success && Z.eqb p (-1) then 1 else 0)%nat
         /\ alerts_produced D
            = (if db_success && Z.eqb p (-1) then 1 else 0)%nat.
Proof.
  destruct s as [[f tr sm d n] st].
  unfold M.exec, M.outcome, process_reading, save_to_database, save_to_files,
    bump_total_readings, bump_anomalies_detected, bump_files_created.
  unfold M.try_except, M.bind, M.backend, M.ret, M.clock, M.modify, perform.
  cbn.
  destruct (Z.eqb p (-1)) eqn:Hp; cbn.
  all: case_faults f.
  all: give_prefix; split; [reflexivity |].
  all: do 3 eexists; split; [reflexivity |]; split; [reflexivity |].
  all: split; [cbn; repeat first [left; reflexivity | right] |].
  all: repeat split; try reflexivity; try (vm_compute; reflexivity); auto.
Qed.

(** C1 (as amended): for every dispatched reading the write of the bronze
    file is requested, and bronze receives one file when that write
    succeeds and none when it fails; exactly one of silver and gold
    receives a file when the file save reports success -- gold when the
    prediction is [-1], silver otherwise -- and neither does when it reports
    failure; an alert record is produced exactly when the prediction is
    [-1] and the database save reports success, whether or not gold was
    written. *)
Theorem tiers_follow_the_saves (r : Reading) (p : Z) (s : Self) :
  let D := events_since (trace (world s))
             (trace (world (M.exec (process_reading r p) s))) in
  exists db_success file_success bronze_success,
    M.outcome (save_to_database r p) s = Ok db_success
    /\ M.outcome (save_to_files r p) (M.exec (save_to_database r p) s)
       = Ok file_success
    /\ In (WriteFile (bronze_file r) Truncate
             (file_data r p (now (world s))), bronze_success) D
    /\ (file_success = true -> bronze_success = true)
    /\ writes_to bronze D = (if bronze_success then 1 else 0)%nat
    /\ writes_to silver D
       = (if file_success && negb (Z.eqb p ANOMALOUS) then 1 else 0)%nat
    /\ writes_to gold D
       = (if file_success && Z.eqb p ANOMALOUS then 1 else 0)%nat
    /\ alerts_produced D
       = (if db_success && Z.eqb p ANOMALOUS then 1 else 0)%nat.
Proof.
  intros D. subst D.
  destruct (dispatch_tiers r p s) as (D & Htrace & Hrest).
  rewrite Htrace, events_since_app. exact Hrest.
Qed.

(** Whatever fails, a dispatch writes nothing but bronze and the tier of the
    prediction, silver or gold only after bronze, and an alert only for a
    prediction of [-1]. *)
Lemma tiers_never_misrouted (r : Reading) (p : Z) (s : Self) :
  let D := events_since (trace (world s))
             (trace (world (M.exec (process_reading r p) s))) in
  (writes_to silver D + writes_to gold D <= writes_to bronze D <= 1)%nat
  /\ (Z.eqb p ANOMALOUS = true -> writes_to silver D = 0%nat)
  /\ (Z.eqb p ANOMALOUS = false ->
      writes_to gold D = 0%nat /\ alerts_produced D = 0%nat).
Proof.
  intros D. subst D.
  destruct (dispatch_effect r p s)
    as (Ddb & _ & Dfs & _ & Htrace & _ & _ & _ & _ & _
        & _ & _ & _ & Hbound & Hroute & Halert & _).
  rewrite Htrace, app_assoc, events_since_app. unfold ANOMALOUS.
  split; [exact Hbound |].
  destruct (Z.eqb p (-1)); split; intros Hp; try discriminate.
  - exact Hroute.
  - split; [exact Hroute |]. rewrite Halert, andb_false_r. reflexivity.
Qed.

(** C1 as stated fails: when the write of the bronze file fails (here the
    third request, after the insertion and the commit), the handler of
    [save_to_files] returns at once and no tier receives the reading. *)
Lemma bronze_failure_skips_tiers :
  ~ Stated.every_reading_reaches_its_tiers.
Proof.
  intros Hclaim.
  specialize (Hclaim Fixtures.normal_reading NORMAL (Fixtures.final_self [2%nat])
                (or_introl eq_refl)).
  vm_compute in Hclaim. destruct Hclaim as [Hbronze _]. discriminate.
Qed.

(** A dispatch that the saves treat differently: the insertion of an
    anomalous reading fails (the first request), so the database save
    reports failure and no alert is produced, while the file save succeeds
    and writes bronze and gold. *)
Lemma gold_without_alert :
  let s := Fixtures.final_self [0%nat] in
  let D := events_since (trace (world s))
             (trace (world (M.exec
                (process_reading Fixtures.hot_reading ANOMALOUS) s))) in
  M.outcome (save_to_database Fixtures.hot_reading ANOMALOUS) s = Ok false
  /\ M.outcome (save_to_files Fixtures.hot_reading ANOMALOUS)
       (M.exec (save_to_database Fixtures.hot_reading ANOMALOUS) s) = Ok true
  /\ writes_to bronze D = 1%nat
  /\ writes_to silver D = 0%nat
  /\ writes_to gold D = 1%nat
  /\ alerts_produced D = 0%nat.
Proof. vm_compute. repeat split. Qed.

Section Cycles.

Variable predict : list Reading -> result (list Z).

Lemma process_sensor_effect (sensor : string) (s s' : Self) :
  process_sensor predict sensor s = (Ok tt, s') ->
  exists D,
    trace (world s') = D ++ trace (world s)
    /\ total_readings (stats s') = total_readings (stats s) + 1
    /\ anomalies_detected (stats s')
       = anomalies_detected (stats s) + anomalies_in D
    /\ length (dispatched D) = 1%nat.
Proof.
  unfold process_sensor, generate_sensor_reading, classify.
  unfold M.bind at 1 2. unfold M.next_sample, M.lift, M.ret, draw. cbn.
  match goal with
  | |- context [predict [?r]] => set (reading := r)
  end.
  unfold M.bind at 1 2. cbn.
  destruct (predict [reading]) as [[| p ps] | e]; cbn; try discriminate.
  set (s0 := {| world := _; stats := stats s |}).
  intros Hrun.
  destruct (dispatch_effect reading p s0)
    as (Ddb & _ & Dfs & _ & Htrace & _ & _ & _ & Htotal & Hanom & Hdisp & _).
  unfold M.exec in Htrace, Htotal, Hanom. rewrite Hrun in Htrace, Htotal, Hanom.
  cbn in Htrace, Htotal, Hanom.
  exists (Dfs ++ Ddb). rewrite <- app_assoc.
  repeat split; try assumption.
  - rewrite Hanom. unfold anomalies_in, ANOMALOUS. rewrite Hdisp.
    change (List.filter (Z.eqb (-1)) [p])
      with (if Z.eqb (-1) p then [p] else []).
    rewrite (Z.eqb_sym (-1) p).
    destruct (Z.eqb p (-1)); reflexivity.
  - rewrite Hdisp. reflexivity.
Qed.

Lemma for_each_sensor_effect (l : list string) (s s' : Self) :
  M.for_each l (process_sensor predict) s = (Ok tt, s') ->
  exists D,
    trace (world s') = D ++ trace (world s)
    /\ total_readings (stats s')
       = total_readings (stats s) + Z.of_nat (length l)
    /\ anomalies_detected (stats s')
       = anomalies_detected (stats s) + anomalies_in D
    /\ length (dispatched D) = length l.
Proof.
  revert s. induction l as [| sensor rest IH]; intros s; cbn.
  - intros [= <-]. exists []. cbn. repeat split; try lia.
    unfold anomalies_in. cbn. lia.
  - unfold M.bind.
    destruct (process_sensor predict sensor s) as [[[] | e] s1] eqn:Hfirst;
      [| discriminate].
    intros Hrest.
    destruct (process_sensor_effect _ _ _ Hfirst) as (D1 & Ht1 & Hn1 & Ha1 & Hd1).
    destruct (IH _ Hrest) as (D2 & Ht2 & Hn2 & Ha2 & Hd2).
    exists (D2 ++ D1). rewrite <- app_assoc, <- Ht1.
    repeat split; try assumption.
    + lia.
    + rewrite anomalies_in_app. lia.
    + rewrite dispatched_app, length_app. lia.
Qed.

Lemma run_cycles_effect (n : nat) (s s' : Self) :
  run_cycles predict n s = (Ok tt, s') ->
  exists D,
    trace (world s') = D ++ trace (world s)
    /\ total_readings (stats s')
       = total_readings (stats s) + Z.of_nat n * Z.of_nat (length sensors)
    /\ anomalies_detected (stats s')
       = anomalies_detected (stats s) + anomalies_in D
    /\ length (dispatched D) = (n * length sensors)%nat.
Proof.
  unfold run_cycles. revert s. induction n as [| n IH]; intros s.
  - cbn. intros [= <-]. exists []. cbn. repeat split; try lia.
    unfold anomalies_in. cbn. lia.
  - cbn [M.iterate]. unfold M.bind.
    destruct (cycle predict s) as [[[] | e] s1] eqn:Hfirst; [| discriminate].
    intros Hrest.
    destruct (for_each_sensor_effect _ _ _ Hfirst) as (D1 & Ht1 & Hn1 & Ha1 & Hd1).
    destruct (IH _ Hrest) as (D2 & Ht2 & Hn2 & Ha2 & Hd2).
    exists (D2 ++ D1). rewrite <- app_assoc, <- Ht1.
    repeat split; try assumption.
    + lia.
    + rewrite anomalies_in_app. lia.
    + rewrite dispatched_app, length_app. lia.
Qed.

(** A detector whose [predict] returns at least one prediction for every
    single reading. *)
Definition answers_every_reading : Prop :=
  forall r, exists p ps, predict [r] = Ok (p :: ps).

Lemma process_sensor_returns (sensor : string) (s : Self) :
  answers_every_reading ->
  exists s', process_sensor predict sensor s = (Ok tt, s').
Proof.
  intros Hanswers.
  unfold process_sensor, generate_sensor_reading, classify.
  unfold M.bind at 1 2. unfold M.next_sample, M.lift, M.ret, draw. cbn.
  match goal with
  | |- context [predict [?r]] => destruct (Hanswers r) as (p & ps & ->)
  end.
  unfold M.bind at 1 2. cbn.
  match goal with
  | |- context [process_reading ?r ?p ?s0] =>
      destruct (dispatch_effect r p s0)
        as (_ & _ & _ & _ & _ & _ & _ & Hok & _);
      revert Hok; unfold M.outcome;
      destruct (process_reading r p s0) as [res s']
  end.
  cbn. intros ->. exists s'. reflexivity.
Qed.

Lemma for_each_sensor_returns (l : list string) (s : Self) :
  answers_every_reading ->
  exists s', M.for_each l (process_sensor predict) s = (Ok tt, s').
Proof.
  intros Hanswers. revert s. induction l as [| sensor rest IH]; intros s; cbn.
  - exists s. reflexivity.
  - unfold M.bind.
    destruct (process_sensor_returns sensor s Hanswers) as [s1 ->].
    apply IH.
Qed.

Lemma run_cycles_returns (n : nat) (s : Self) :
  answers_every_reading ->
  exists s', run_cycles predict n s = (Ok tt, s').
Proof.
  intros Hanswers. unfold run_cycles. revert s.
  induction n as [| n IH]; intros s; cbn [M.iterate].
  - exists s. reflexivity.
  - unfold M.bind at 1. unfold cycle at 1.
    destruct (for_each_sensor_returns sensors s Hanswers) as [s1 ->].
    apply IH.
Qed.

(** C2: starting from counters at zero, [n] complete cycles over the
    sensors leave [total_readings] at [n] times the number of sensors and
    [anomalies_detected] at the number of readings, among those dispatched
    during these cycles, whose prediction is [-1]; [n] times the number of
    sensors readings were dispatched.  The cycles do complete when the
    detector answers every reading. *)
Theorem stats_after_cycles (n : nat) (s : Self) :
  total_readings (stats s) = 0 ->
  anomalies_detected (stats s) = 0 ->
  (forall s',
      run_cycles predict n s = (Ok tt, s') ->
      let D := events_since (trace (world s)) (trace (world s')) in
      total_readings (stats s') = Z.of_nat n * Z.of_nat (length sensors)
      /\ anomalies_detected (stats s') = anomalies_in D
      /\ length (dispatched D) = (n * length sensors)%nat)
  /\ (answers_every_reading ->
      exists s', run_cycles predict n s = (Ok tt, s')).
Proof.
  intros Htotal Hanom. split.
  - intros s' Hrun D. subst D.
    destruct (run_cycles_effect _ _ _ Hrun) as (D & Ht & Hn & Ha & Hd).
    rewrite Ht, events_since_app. repeat split; try assumption; lia.
  - apply run_cycles_returns.
Qed.

End Cycles.

End FinalProofs.

Lemma fixture_detector_answers (r : Reading) :
  exists p ps, Fixtures.predict Fixtures.trained [r] = Ok (p :: ps).
Proof.
  unfold Fixtures.predict, AnomalyDetector.predict,
    AnomalyDetector.predict_trained.
  rewrite extract_features_rows. cbn. eauto.
Qed.

Lemma stats_after_cycles_witness :
  FinalWorkingPipeline.total_readings
    (FinalWorkingPipeline.stats (Fixtures.final_self [1%nat; 4%nat])) = 0
  /\ FinalWorkingPipeline.anomalies_detected
       (FinalWorkingPipeline.stats (Fixtures.final_self [1%nat; 4%nat])) = 0
  /\ exists s',
       FinalWorkingPipeline.run_cycles (Fixtures.predict Fixtures.trained) 2
         (Fixtures.final_self [1%nat; 4%nat]) = (Ok tt, s')
       /\ FinalWorkingPipeline.total_readings (FinalWorkingPipeline.stats s')
          = 10
       /\ FinalWorkingPipeline.anomalies_detected (FinalWorkingPipeline.stats s')
          = anomalies_in
              (events_since
                 (trace (FinalWorkingPipeline.world
                           (Fixtures.final_self [1%nat; 4%nat])))
                 (trace (FinalWorkingPipeline.world s'))).
Proof.
  split; [reflexivity |]. split; [reflexivity |].
  destruct (FinalProofs.stats_after_cycles (Fixtures.predict Fixtures.trained)
              2 (Fixtures.final_self [1%nat; 4%nat]) eq_refl eq_refl)
    as [Hall Hreturns].
  destruct (Hreturns fixture_detector_answers) as [s' Hrun].
  exists s'. split; [exact Hrun |].
  destruct (Hall s' Hrun) as (Htotal & Hanom & _).
  split; [exact Htotal | exact Hanom].
Defined.

(** C9 (as amended), for [final_working_pipeline.py]: when the connection
    to PostgreSQL fails at startup the process ends with [SystemExit(1)];
    the failed connection is the only request it has made, and no reading
    was generated, so the cycle loop was not entered. *)
Theorem unreachable_database_exits
  (predict : list Reading -> result (list Z)) (n : nat)
  (s : FinalWorkingPipeline.Self) :
  faults (FinalWorkingPipeline.world s)
    (length (trace (FinalWorkingPipeline.world s))) = true ->
  M.outcome (FinalWorkingPipeline.main predict n) s = Raise (SystemExit 1)
  /\ events_since (trace (FinalWorkingPipeline.world s))
       (trace (FinalWorkingPipeline.world
                 (M.exec (FinalWorkingPipeline.main predict n) s)))
     = [(Connect, false)]
  /\ drawn (FinalWorkingPipeline.world
              (M.exec (FinalWorkingPipeline.main predict n) s))
     = drawn (FinalWorkingPipeline.world s).
Proof.
  destruct s as [[f tr sm d nw] st]. cbn. intros Hfail.
  unfold M.exec, M.outcome, FinalWorkingPipeline.main,
    FinalWorkingPipeline.init, FinalWorkingPipeline.setup_database.
  unfold M.bind, M.try_except, M.backend, M.raise, perform. cbn.
  rewrite Hfail. cbn.
  split; [reflexivity |]. split; [| reflexivity].
  exact (events_since_app [(Connect, false)] tr).
Qed.

Lemma unreachable_database_exits_witness :
  faults (FinalWorkingPipeline.world (Fixtures.final_self [0%nat]))
    (length (trace (FinalWorkingPipeline.world (Fixtures.final_self [0%nat]))))
  = true
  /\ M.outcome
       (FinalWorkingPipeline.main (Fixtures.predict Fixtures.trained) 3)
       (Fixtures.final_self [0%nat]) = Raise (SystemExit 1).
Proof.
  split; [reflexivity |].
  apply (unreachable_database_exits (Fixtures.predict Fixtures.trained) 3
           (Fixtures.final_self [0%nat])).
  reflexivity.
Defined.

(** What [dashboard/working_pipeline.py] does when the connection fails:
    [conn] stays [None], the pipeline returns normally after its cycle, five
    readings were dispatched, and the bronze bucket was written. *)
Lemma working_pipeline_runs_without_database :
  let s' := M.exec (WorkingPipeline.main (Fixtures.predict Fixtures.trained) 1)
              (Fixtures.working_self [0%nat]) in
  M.outcome (WorkingPipeline.main (Fixtures.predict Fixtures.trained) 1)
    (Fixtures.working_self [0%nat]) = Ok tt
  /\ WorkingPipeline.conn s' = false
  /\ WorkingPipeline.reading_count s' = 5
  /\ length (List.filter
               (fun e => match e with
                         | (PutObject "bronze" _ _, true) => true
                         | _ => false
                         end)
               (trace (WorkingPipeline.world s'))) = 5%nat.
Proof. vm_compute. repeat split; reflexivity. Qed.

(** C9 as stated fails for [dashboard/working_pipeline.py], which goes on
    without the database. *)
Lemma working_pipeline_does_not_exit :
  ~ Stated.working_pipeline_exits_without_database.
Proof.
  intros Hclaim.
  destruct (Hclaim (Fixtures.predict Fixtures.trained) 1%nat
              (Fixtures.working_self [0%nat]) eq_refl) as [code Hexit].
  vm_compute in Hexit. discriminate.
Qed.

(** ** Sequencing in the monad *)

Lemma run_pair {S A : Type} (c : M.t S A) (s : S) (a : A) :
  M.outcome c s = Ok a -> c s = (Ok a, M.exec c s).
Proof.
  unfold M.outcome, M.exec. destruct (c s) as [r s1]. cbn. intros ->.
  reflexivity.
Qed.

Lemma exec_bind {S A B : Type} (c : M.t S A) (k : A -> M.t S B) (s : S) (a : A) :
  M.outcome c s = Ok a ->
  M.exec (M.bind c k) s = M.exec (k a) (M.exec c s).
Proof.
  intros H. unfold M.exec at 1. unfold M.bind. rewrite (run_pair _ _ _ H).
  reflexivity.
Qed.

Lemma outcome_bind {S A B : Type} (c : M.t S A) (k : A -> M.t S B) (s : S) (a : A) :
  M.outcome c s = Ok a ->
  M.outcome (M.bind c k) s = M.outcome (k a) (M.exec c s).
Proof.
  intros H. unfold M.outcome at 1. unfold M.bind. rewrite (run_pair _ _ _ H).
  reflexivity.
Qed.

Module ResilientProofs.
Import ResilientPipeline.






Lemma save_to_local_files_effect (r : Reading) (p : Z) (s : Self) :
  exists file_success,
    M.outcome (save_to_local_files r p) s = Ok file_success
    /\ stats (M.exec (save_to_local_files r p) s) = stats s
    /\ db_connected (M.exec (save_to_local_files r p) s) = db_connected s.
Proof.
  destruct s as [[f tr sm d n] st c].
  unfold M.exec, M.outcome, save_to_local_files.
  unfold M.try_except, M.bind, M.backend, M.ret, M.clock, perform. cbn.
  destruct (Z.eqb p (-1)); cbn.
  all: case_faults f.
  all: eexists; repeat split.
Qed.



End ResilientProofs.

(** * Further properties of the anomaly detector *)

Section DetectorExtras.

Context {Scaler Model : Type}.
Variable scaler_fit_transform :
  Scaler -> AnomalyDetector.ndarray -> Scaler * result AnomalyDetector.ndarray.
Variable scaler_transform :
  Scaler -> AnomalyDetector.ndarray -> result AnomalyDetector.ndarray.
Variable model_fit :
  Model -> AnomalyDetector.ndarray -> Model * result unit.
Variable model_predict :
  Model -> AnomalyDetector.ndarray -> result (list Z).

(** Whatever the model answers, [predict] returns nothing but [-1] and
    [0]: every label other than [-1] becomes [0]; and for a trained detector
    it returns one label for each prediction of the model. *)
Theorem predict_labels (d : AnomalyDetector.t Scaler Model)
  (data : list Reading) (labels : list Z) :
  AnomalyDetector.predict scaler_transform model_predict d data = Ok labels ->
  Forall (fun p => p = ANOMALOUS \/ p = NORMAL) labels
  /\ (AnomalyDetector.is_trained d = true ->
      exists scaled raw,
        scaler_transform (AnomalyDetector.scaler d)
          (map AnomalyDetector.features_of data) = Ok scaled
        /\ model_predict (AnomalyDetector.model d) scaled = Ok raw
        /\ length labels = length raw
        /\ forall i p, raw !! i = Some p ->
             labels !! i = Some (if Z.eqb p (-1) then ANOMALOUS else NORMAL)).
Proof.
  unfold AnomalyDetector.predict, AnomalyDetector.predict_trained.
  destruct (AnomalyDetector.is_trained d); cbn.
  - rewrite extract_features_rows. cbn.
    destruct (scaler_transform _ _) as [scaled | e] eqn:Hscaled; cbn;
      [| discriminate].
    destruct (model_predict _ scaled) as [raw | e] eqn:Hraw; cbn;
      [| discriminate].
    intros [= <-]. split.
    + clear Hraw. induction raw as [| p raw IH]; cbn; constructor; [| exact IH].
      destruct (Z.eqb p (-1)); [left | right]; reflexivity.
    + intros _. exists scaled, raw.
      split; [reflexivity |]. split; [exact Hraw |]. split.
      * apply length_map.
      * clear Hraw. intros i p. revert i.
        induction raw as [| q raw IH]; intros [| i] Hi; cbn in *;
          try discriminate.
        -- injection Hi as ->. reflexivity.
        -- apply IH. exact Hi.
  - intros [= <-]. split; [| discriminate].
    induction (length data); cbn; constructor; auto.
Qed.

(** [train] sets [is_trained] exactly when both fits succeed: when the
    call raises, the flag is as before (and the model is untouched if it was
    the scaler that failed); when it returns, the flag is set and the model
    was fitted on what the scaler returned for the extracted features. *)
Theorem train_flag (d d' : AnomalyDetector.t Scaler Model)
  (data : list Reading) (r : result unit) :
  AnomalyDetector.train scaler_fit_transform model_fit d data = (d', r) ->
  match r with
  | Raise e =>
      AnomalyDetector.is_trained d' = AnomalyDetector.is_trained d
      /\ (snd (scaler_fit_transform (AnomalyDetector.scaler d)
                 (map AnomalyDetector.features_of data)) = Raise e ->
          AnomalyDetector.model d' = AnomalyDetector.model d)
  | Ok _ =>
      AnomalyDetector.is_trained d' = true
      /\ exists scaled,
           scaler_fit_transform (AnomalyDetector.scaler d)
             (map AnomalyDetector.features_of data)
           = (AnomalyDetector.scaler d', Ok scaled)
           /\ model_fit (AnomalyDetector.model d) scaled
              = (AnomalyDetector.model d', Ok tt)
  end.
Proof.
  unfold AnomalyDetector.train. rewrite extract_features_rows.
  destruct (scaler_fit_transform _ _) as [s1 [scaled | e]] eqn:Hs; cbn.
  - destruct (model_fit _ scaled) as [m1 [[] | e]] eqn:Hm; cbn;
      intros [= <- <-]; cbn.
    + split; [reflexivity |]. exists scaled. split; [reflexivity | exact Hm].
    + split; [reflexivity |]. discriminate.
  - intros [= <- <-]. cbn. split; reflexivity.
Qed.

Lemma train_ok_sets_flag (d d' : AnomalyDetector.t Scaler Model)
  (data : list Reading) :
  AnomalyDetector.train scaler_fit_transform model_fit d data = (d', Ok tt) ->
  AnomalyDetector.is_trained d' = true.
Proof.
  unfold AnomalyDetector.train. rewrite extract_features_rows.
  destruct (scaler_fit_transform _ _) as [s1 [scaled | e]]; cbn;
    [| discriminate].
  destruct (model_fit _ scaled) as [m1 [[] | e]]; cbn; [| discriminate].
  intros [= <-]. reflexivity.
Qed.

Abbreviation startup :=
  (ModelStartup.load_model scaler_fit_transform model_fit).

Lemma startup_effect
  (fs fs1 : AnomalyDetector.FS Scaler Model)
  (d d1 : AnomalyDetector.t Scaler Model) (training_data : list Reading) :
  startup fs d training_data = (fs1, d1, Ok tt) ->
  AnomalyDetector.is_trained d1 = true
  /\ AnomalyDetector.files fs1 !! ModelStartup.model_path
     = Some (AnomalyDetector.Pickled (AnomalyDetector.model d1)
               (AnomalyDetector.scaler d1)).
Proof.
  unfold ModelStartup.load_model, AnomalyDetector.load_model.
  destruct (AnomalyDetector.files fs !! ModelStartup.model_path)
    as [[m sc |] |] eqn:Hfile; cbn.
  - intros [= <- <-]. cbn. split; [reflexivity | exact Hfile].
  - unfold ModelStartup.train_model.
    destruct (AnomalyDetector.train _ _ d training_data) as [d2 [[] | e]] eqn:Ht;
      [| discriminate].
    pose proof (train_ok_sets_flag _ _ _ Ht) as Hflag.
    unfold AnomalyDetector.save_model.
    destruct (AnomalyDetector.writable fs _); [| discriminate].
    intros [= <- <-]. cbn. split; [exact Hflag | apply lookup_insert_eq].
  - unfold ModelStartup.train_model.
    destruct (AnomalyDetector.train _ _ d training_data) as [d2 [[] | e]] eqn:Ht;
      [| discriminate].
    pose proof (train_ok_sets_flag _ _ _ Ht) as Hflag.
    unfold AnomalyDetector.save_model.
    destruct (AnomalyDetector.writable fs _); [| discriminate].
    intros [= <- <-]. cbn. split; [exact Hflag | apply lookup_insert_eq].
Qed.

(** When the pipeline's [load_model] returns normally the detector is
    trained and the model file holds its model and scaler (either the file
    was there and was loaded, or a new model was trained and saved); a
    second startup on that file system then loads the saved model instead of
    training: whatever detector object and training data it starts with, it
    leaves the file system as it is and ends with a detector that predicts
    like the first. *)
Theorem startup_then_restart
  (fs fs1 : AnomalyDetector.FS Scaler Model)
  (d d1 other : AnomalyDetector.t Scaler Model)
  (training_data other_data : list Reading) :
  startup fs d training_data = (fs1, d1, Ok tt) ->
  AnomalyDetector.is_trained d1 = true
  /\ AnomalyDetector.files fs1 !! ModelStartup.model_path
     = Some (AnomalyDetector.Pickled (AnomalyDetector.model d1)
               (AnomalyDetector.scaler d1))
  /\ exists d2,
       startup fs1 other other_data = (fs1, d2, Ok tt)
       /\ forall X,
            AnomalyDetector.predict scaler_transform model_predict d2 X
            = AnomalyDetector.predict scaler_transform model_predict d1 X.
Proof.
  intros Hfirst.
  destruct (startup_effect _ _ _ _ _ Hfirst) as [Htrained Hfile].
  split; [exact Htrained |]. split; [exact Hfile |].
  unfold ModelStartup.load_model at 1, AnomalyDetector.load_model.
  rewrite Hfile. eexists. split; [reflexivity |].
  intros X. apply predict_ext; cbn; auto.
Qed.

(** When the model file is missing, the detector's [load_model] raises
    [FileNotFoundError] and leaves the detector as it was; the pipeline then
    trains, and an exception of [train] or of [save_model] leaves
    [load_model] of the pipeline: nothing catches it. *)
Theorem startup_without_model_file
  (fs : AnomalyDetector.FS Scaler Model)
  (d : AnomalyDetector.t Scaler Model) (training_data : list Reading) :
  AnomalyDetector.files fs !! ModelStartup.model_path = None ->
  AnomalyDetector.load_model fs d ModelStartup.model_path
  = (d, Raise FileNotFoundError)
  /\ startup fs d training_data
     = ModelStartup.train_model scaler_fit_transform model_fit fs d
         training_data
  /\ (forall d' e,
        AnomalyDetector.train scaler_fit_transform model_fit d training_data
        = (d', Raise e) ->
        startup fs d training_data = (fs, d', Raise e))
  /\ (forall d',
        AnomalyDetector.train scaler_fit_transform model_fit d training_data
        = (d', Ok tt) ->
        AnomalyDetector.writable fs ModelStartup.model_path = false ->
        startup fs d training_data = (fs, d', Raise OSError)).
Proof.
  intros Hmissing.
  unfold ModelStartup.load_model, AnomalyDetector.load_model.
  rewrite Hmissing. cbn. repeat split.
  - intros d' e Ht. unfold ModelStartup.train_model. rewrite Ht. reflexivity.
  - intros d' Ht Hro. unfold ModelStartup.train_model. rewrite Ht.
    unfold AnomalyDetector.save_model. rewrite Hro. reflexivity.
Qed.

End DetectorExtras.
(** * Further properties of [final_working_pipeline.py] *)

Lemma exec_bind_raise {S A B : Type} (c : M.t S A) (k : A -> M.t S B)
  (s : S) (e : exn) :
  M.outcome c s = Raise e ->
  M.exec (M.bind c k) s = M.exec c s
  /\ M.outcome (M.bind c k) s = Raise e.
Proof.
  unfold M.outcome, M.exec, M.bind. destruct (c s) as [r s1]. cbn.
  intros ->. split; reflexivity.
Qed.

(** A property of the state that every iteration keeps, whether it
    returns or raises, holds where a [for] loop stops. *)
Lemma for_each_invariant {S A : Type} (P : S -> Prop)
  (body : A -> M.t S unit) (l : list A) :
  (forall x s, P s -> P (M.exec (body x) s)) ->
  forall s, P s -> P (M.exec (M.for_each l body) s).
Proof.
  intros Hbody. induction l as [| x rest IH]; intros s Hs; cbn.
  - exact Hs.
  - destruct (M.outcome (body x) s) as [[] | e] eqn:Hx.
    + rewrite (exec_bind _ _ _ _ Hx). apply IH, Hbody, Hs.
    + destruct (exec_bind_raise _ (fun _ => M.for_each rest body) _ _ Hx)
        as [-> _].
      apply Hbody, Hs.
Qed.

Lemma iterate_invariant {S : Type} (P : S -> Prop) (body : M.t S unit)
  (n : nat) :
  (forall s, P s -> P (M.exec body s)) ->
  forall s, P s -> P (M.exec (M.iterate n body) s).
Proof.
  intros Hbody. induction n as [| n IH]; intros s Hs; cbn.
  - exact Hs.
  - destruct (M.outcome body s) as [[] | e] eqn:Hx.
    + rewrite (exec_bind _ _ _ _ Hx). apply IH, Hbody, Hs.
    + destruct (exec_bind_raise _ (fun _ => M.iterate n body) _ _ Hx)
        as [-> _].
      apply Hbody, Hs.
Qed.

(** The [while True:] loop under [except KeyboardInterrupt], interrupted
    after the loop body [c] was run: the interrupt is absorbed, any other
    exception of [c] goes on. *)
Lemma interrupted_loop {S : Type} (c : M.t S unit) (s : S) :
  M.try_except is_KeyboardInterrupt
    (M.bind c (fun _ => M.raise KeyboardInterrupt)) (fun _ => M.ret tt) s
  = (match M.outcome c s with
     | Ok _ => Ok tt
     | Raise e => if is_KeyboardInterrupt e then Ok tt else Raise e
     end, M.exec c s).
Proof.
  unfold M.try_except, M.bind, M.outcome, M.exec, M.raise, M.ret.
  destruct (c s) as [[[] | e] s1]; cbn; [reflexivity |].
  destruct (is_KeyboardInterrupt e); reflexivity.
Qed.

Module FinalExtras.
Import FinalWorkingPipeline.

(** [__init__] stops at the first request that fails: it returns normally
    only after all nine requests (six to the database, three [makedirs])
    succeeded, and then the counters are zero; a failed database request
    ends the process with [SystemExit(1)]; a failed [makedirs] leaves
    [__init__] as [OSError], which nothing catches. *)
Theorem init_stops_at_first_failure (s : Self) :
  exists D,
    trace (world (M.exec init s)) = D ++ trace (world s)
    /\ forallb snd (tail D) = true
    /\ M.outcome init s
       = (if forallb snd D then Ok tt
          else if (length D <=? 6)%nat then Raise (SystemExit 1)
          else Raise OSError)
    /\ (forallb snd D = true ->
        length D = 9%nat
        /\ total_readings (stats (M.exec init s)) = 0
        /\ anomalies_detected (stats (M.exec init s)) = 0
        /\ files_created (stats (M.exec init s)) = 0).
Proof.
  destruct s as [[f tr sm d n] st].
  unfold M.exec, M.outcome, init, setup_database, setup_file_storage,
    reset_stats, directories.
  unfold M.for_each, M.try_except, M.bind, M.backend, M.ret, M.raise,
    M.clock, M.modify, perform.
  cbn.
  case_faults f.
  all: give_prefix; split; [reflexivity |].
  all: repeat split; try reflexivity; try discriminate.
Qed.

Section Loop.

Variable predict : list Reading -> result (list Z).

(** Whether the loop completed or an exception left it, the last request
    of [run_pipeline] is [conn.close()]; when the close succeeds
    [run_pipeline] returns normally after the interrupt and passes on any
    other exception of the loop, and when it fails that failure is what
    leaves [run_pipeline]. *)
Theorem run_pipeline_closes (n : nat) (s : Self) :
  exists closed,
    trace (world (M.exec (run_pipeline predict n) s))
    = (Close, closed) :: trace (world (M.exec (run_cycles predict n) s))
    /\ stats (M.exec (run_pipeline predict n) s)
       = stats (M.exec (run_cycles predict n) s)
    /\ M.outcome (run_pipeline predict n) s
       = (if closed
          then match M.outcome (run_cycles predict n) s with
               | Ok _ => Ok tt
               | Raise e => if is_KeyboardInterrupt e then Ok tt else Raise e
               end
          else Raise DatabaseError).
Proof.
  unfold run_pipeline.
  unfold M.exec at 1 3. unfold M.outcome at 1. unfold M.try_finally.
  rewrite interrupted_loop.
  destruct (M.exec (run_cycles predict n) s) as [[f tr sm d nw] st].
  unfold M.backend, perform. cbn.
  destruct (f (length tr)); cbn; eexists; repeat split.
Qed.

(** What one dispatch does to the counters and which sensor it inserts. *)
Lemma dispatch_counters (r : Reading) (p : Z) (s : Self) :
  total_readings (stats (M.exec (process_reading r p) s))
  = total_readings (stats s) + 1
  /\ (anomalies_detected (stats s)
      <= anomalies_detected (stats (M.exec (process_reading r p) s))
      <= anomalies_detected (stats s) + 1)
  /\ files_created (stats (M.exec (process_reading r p) s))
     = files_created (stats s)
       + match M.outcome (save_to_files r p)
                 (M.exec (save_to_database r p) s) with
         | Ok true => 1
         | _ => 0
         end
  /\ exists D,
       trace (world (M.exec (process_reading r p) s)) = D ++ trace (world s)
       /\ inserted_sensors D = [sensor_id r].
Proof.
  destruct s as [[f tr sm d n] st].
  unfold M.exec, M.outcome, process_reading, save_to_database, save_to_files,
    bump_total_readings, bump_anomalies_detected, bump_files_created.
  unfold M.try_except, M.bind, M.backend, M.ret, M.clock, M.modify, perform.
  cbn.
  destruct (Z.eqb p (-1)) eqn:Hp; cbn.
  all: case_faults f.
  all: split; [reflexivity |]; split; [lia |]; split; [lia |].
  all: give_prefix; split; reflexivity.
Qed.

(** [anomalies_detected] and [files_created] lie between zero and
    [total_readings]. *)
Definition counters_ordered (s : Self) : Prop :=
  0 <= anomalies_detected (stats s) <= total_readings (stats s)
  /\ 0 <= files_created (stats s) <= total_readings (stats s).

Lemma process_sensor_keeps_order (sensor : string) (s : Self) :
  counters_ordered s ->
  counters_ordered (M.exec (process_sensor predict sensor) s).
Proof.
  intros Hs.
  unfold process_sensor, generate_sensor_reading, classify.
  unfold M.exec, M.bind at 1 2. unfold M.next_sample, M.lift, M.ret, draw. cbn.
  unfold M.bind at 1 2. cbn.
  destruct (predict _) as [[| p ps] | e]; cbn; try exact Hs.
  match goal with
  | |- context [process_reading ?r ?p ?s0] =>
      destruct (dispatch_counters r p s0) as (Ht & Ha & Hf & _);
      change (snd (process_reading r p s0))
        with (M.exec (process_reading r p) s0)
  end.
  unfold counters_ordered in *. cbn in Ht, Ha, Hf.
  rewrite Ht, Hf.
  destruct (M.outcome _ _) as [[|] | e]; lia.
Qed.

(** The counters stay ordered: wherever the loop stops -- after [n]
    cycles or at an exception of the detector -- [anomalies_detected] and
    [files_created] lie between zero and [total_readings], if they did at
    the start. *)
Theorem counters_stay_ordered (n : nat) (s : Self) :
  counters_ordered s ->
  counters_ordered (M.exec (run_cycles predict n) s).
Proof.
  unfold run_cycles, cycle.
  apply (iterate_invariant counters_ordered).
  intros s0. apply (for_each_invariant counters_ordered).
  intros sensor s1. apply process_sensor_keeps_order.
Qed.

Lemma for_each_sensor_order (l : list string) (s s' : Self) :
  M.for_each l (process_sensor predict) s = (Ok tt, s') ->
  exists D,
    trace (world s') = D ++ trace (world s)
    /\ rev (inserted_sensors D) = l.
Proof.
  revert s. induction l as [| sensor rest IH]; intros s; cbn.
  - intros [= <-]. exists []. split; reflexivity.
  - unfold M.bind at 1.
    destruct (process_sensor predict sensor s) as [[[] | e] s1] eqn:Hfirst;
      [| discriminate].
    intros Hrest.
    destruct (IH _ Hrest) as (D2 & Ht2 & Ho2).
    revert Hfirst.
    unfold process_sensor, generate_sensor_reading, classify.
    unfold M.bind at 1 2. unfold M.next_sample, M.lift, M.ret, draw. cbn.
    unfold M.bind at 1 2. cbn.
    destruct (predict _) as [[| p ps] | e]; cbn; try discriminate.
    match goal with
    | |- process_reading ?r ?p ?s0 = _ -> _ =>
        destruct (dispatch_counters r p s0) as (_ & _ & _ & D1 & Ht1 & Ho1)
    end.
    intros Hrun. unfold M.exec in Ht1. rewrite Hrun in Ht1. cbn in Ht1, Ho1.
    exists (D2 ++ D1). rewrite <- app_assoc, <- Ht1. split; [exact Ht2 |].
    unfold inserted_sensors in *. rewrite omap_app, rev_app_distr, Ho2, Ho1.
    reflexivity.
Qed.

(** The readings of a complete cycle are dispatched in the order of
    [self.sensors], one for each sensor, each under the sensor it was
    generated for. *)
Theorem cycle_follows_sensor_order (s s' : Self) :
  cycle predict s = (Ok tt, s') ->
  rev (inserted_sensors
         (events_since (trace (world s)) (trace (world s'))))
  = sensors.
Proof.
  intros Hcycle.
  destruct (for_each_sensor_order _ _ _ Hcycle) as (D & Ht & Ho).
  rewrite Ht, events_since_app. exact Ho.
Qed.

End Loop.

End FinalExtras.
(** * Further properties of [dashboard/resilient_pipeline.py] *)

Module ResilientExtras.
Import ResilientPipeline.

Lemma log_metric_keeps_stats (metric_name : string) (value : float)
  (sensor : option string) (s : Self) :
  M.outcome (log_metric metric_name value sensor) s = Ok tt
  /\ stats (M.exec (log_metric metric_name value sensor) s) = stats s.
Proof.
  destruct s as [[f tr sm d n] st c].
  unfold M.exec, M.outcome, log_metric.
  unfold M.try_except, M.bind, M.backend, M.ret, M.get, perform. cbn.
  destruct c; cbn; [| split; reflexivity].
  case_faults f; split; reflexivity.
Qed.

Lemma save_to_database_counters (r : Reading) (p : Z) (s : Self) :
  exists saved,
    M.outcome (save_to_database r p) s = Ok saved
    /\ db_saves (stats (M.exec (save_to_database r p) s))
       = db_saves (stats s) + (if saved then 1 else 0)
    /\ errors (stats (M.exec (save_to_database r p) s))
       = errors (stats s)
         + (if db_connected s && negb saved then 1 else 0)
    /\ total_readings (stats (M.exec (save_to_database r p) s))
       = total_readings (stats s).
Proof.
  destruct s as [[f tr sm d n] st c].
  unfold M.exec, M.outcome, save_to_database, bump_db_saves, bump_errors,
    with_stats.
  unfold M.try_except, M.bind, M.backend, M.ret, M.get, M.modify, perform.
  cbn.
  destruct c; cbn.
  - destruct (Z.eqb p (-1)); cbn.
    all: case_faults f.
    all: eexists; split; [reflexivity |]; cbn; lia.
  - exists false. cbn. repeat split; lia.
Qed.

(** A step that returns normally, adds [k] to [total_readings] and leaves
    [db_saves] and [errors] as they are. *)
Definition counts (k : Z) (c : M.t Self unit) : Prop :=
  forall s,
    M.outcome c s = Ok tt
    /\ total_readings (stats (M.exec c s)) = total_readings (stats s) + k
    /\ db_saves (stats (M.exec c s)) = db_saves (stats s)
    /\ errors (stats (M.exec c s)) = errors (stats s).

Lemma counts_bind (k1 k2 : Z) (c k : M.t Self unit) :
  counts k1 c -> counts k2 k -> counts (k1 + k2) (M.bind c (fun _ => k)).
Proof.
  intros Hc Hk s. destruct (Hc s) as (Ho & Ht & Hd & He).
  rewrite (outcome_bind _ _ _ _ Ho), (exec_bind _ _ _ _ Ho).
  destruct (Hk (M.exec c s)) as (Ho' & Ht' & Hd' & He').
  repeat split; try congruence. lia.
Qed.

Lemma counts_bump_total_readings : counts 1 bump_total_readings.
Proof. intros s. repeat split. Qed.

Lemma counts_bump_anomalies_detected : counts 0 bump_anomalies_detected.
Proof. intros s. repeat split. cbn. lia. Qed.

Lemma counts_log_metric (metric_name : string) (value : float)
  (sensor : option string) :
  counts 0 (log_metric metric_name value sensor).
Proof.
  intros s. destruct (log_metric_keeps_stats metric_name value sensor s)
    as [Ho Hs].
  rewrite Hs. repeat split; try assumption. lia.
Qed.

(** Every dispatched reading is accounted for once: it adds one to
    [total_readings], and, when the database is connected, one to exactly
    one of [db_saves] (the database save returned [True]) and [errors] (it
    returned [False]); without a connection neither moves. *)
Theorem database_saves_accounted (r : Reading) (p : Z) (s : Self) :
  exists saved,
    M.outcome (save_to_database r p) s = Ok saved
    /\ total_readings (stats (M.exec (process_reading r p) s))
       = total_readings (stats s) + 1
    /\ db_saves (stats (M.exec (process_reading r p) s))
       = db_saves (stats s) + (if saved then 1 else 0)
    /\ errors (stats (M.exec (process_reading r p) s))
       = errors (stats s) + (if db_connected s && negb saved then 1 else 0)
    /\ (db_connected s = false -> saved = false).
Proof.
  destruct (save_to_database_counters r p s)
    as (saved & Ho & Hsaves & Herr & Htot).
  destruct (ResilientProofs.save_to_local_files_effect r p
              (M.exec (save_to_database r p) s))
    as (file_success & Ho2 & Hs2 & _).
  assert (Hrest : counts (1 + (0 + (0 + 0)))
    (M.bind bump_total_readings (fun _ =>
     M.bind (log_metric "temperature" (temperature r) (Some (sensor_id r)))
       (fun _ =>
     M.bind (log_metric "humidity" (humidity r) (Some (sensor_id r)))
       (fun _ =>
     if Z.eqb p (-1)
     then M.bind bump_anomalies_detected (fun _ =>
            log_metric "anomaly_detected" 1%float (Some (sensor_id r)))
     else log_metric "normal_reading" 1%float (Some (sensor_id r))))))).
  { apply counts_bind; [apply counts_bump_total_readings |].
    apply counts_bind; [apply counts_log_metric |].
    apply counts_bind; [apply counts_log_metric |].
    destruct (Z.eqb p (-1)).
    - apply (counts_bind 0 0);
        [apply counts_bump_anomalies_detected | apply counts_log_metric].
    - apply counts_log_metric. }
  exists saved. split; [exact Ho |].
  unfold process_reading.
  rewrite (exec_bind _ _ _ _ Ho), (exec_bind _ _ _ _ Ho2).
  destruct (Hrest (M.exec (save_to_local_files r p)
                     (M.exec (save_to_database r p) s)))
    as (_ & Ht & Hd & He).
  rewrite Ht, Hd, He, Hs2.
  repeat split; try assumption; try lia.
  intros Hc. revert Ho. unfold M.outcome, save_to_database, M.bind, M.get.
  cbn. rewrite Hc. cbn. intros [= <-]. reflexivity.
Qed.

End ResilientExtras.

Module ResilientStartupExtras.
Import ResilientStartup.

(** [setup_database] of the resilient pipeline always returns [False]:
    if a request fails the handler returns it, and if all succeed
    [log_system_event] reads [self.db_connected], which [__init__] assigns
    only from the value [setup_database] returns; the [AttributeError] is
    caught by the same handler. *)
Lemma setup_database_returns_false (o : Object) :
  assigned o = false ->
  M.outcome setup_database o = Ok false
  /\ assigned (M.exec setup_database o) = false
  /\ exists D,
       trace (ResilientPipeline.world (self (M.exec setup_database o)))
       = D ++ trace (ResilientPipeline.world (self o))
       /\ dispatched D = []
       /\ (length D <= 7)%nat.
Proof.
  destruct o as [[[f tr sm d n] st c] a]. cbn. intros ->.
  unfold M.exec, M.outcome, setup_database, log_system_event,
    read_db_connected, tables.
  unfold M.for_each, M.try_except, M.bind, M.backend, M.ret, perform. cbn.
  case_faults f.
  all: split; [reflexivity |]; split; [reflexivity |].
  all: give_prefix; split; [reflexivity |]; split; [reflexivity |]; cbn; lia.
Qed.

Section Serve.

Variable serve : M.t Object unit.

(** The resilient pipeline never serves: whatever the database answers,
    [__init__] leaves [db_connected] false and [run_pipeline] returns before
    its loop, so the process ends normally having dispatched no reading. *)
Theorem resilient_pipeline_never_serves (o : Object) :
  assigned o = false ->
  main serve o = (Ok tt, M.exec init o)
  /\ ResilientPipeline.db_connected (self (M.exec init o)) = false
  /\ dispatched
       (events_since
          (trace (ResilientPipeline.world (self o)))
          (trace (ResilientPipeline.world (self (M.exec init o))))) = [].
Proof.
  intros Hfresh.
  destruct (setup_database_returns_false o Hfresh)
    as (Ho & Ha & D & Ht & Hd & _).
  assert (Hinit : init o
                  = (Ok tt, M.exec reset_stats
                              (M.exec (assign_db_connected false)
                                 (M.exec setup_database o)))).
  { unfold init, M.bind. rewrite (run_pair _ _ _ Ho). reflexivity. }
  assert (Hexec : M.exec init o
                  = M.exec reset_stats
                      (M.exec (assign_db_connected false)
                         (M.exec setup_database o))).
  { unfold M.exec at 1. rewrite Hinit. reflexivity. }
  split; [| split].
  - unfold main, M.bind. rewrite Hinit, <- Hexec. rewrite Hexec.
    reflexivity.
  - rewrite Hexec. reflexivity.
  - rewrite Hexec. cbn. rewrite Ht, events_since_app. exact Hd.
Qed.

End Serve.

End ResilientStartupExtras.

(** * The error counter of [dashboard/resilient_pipeline.py] *)

Module ResilientCounting.
Import ResilientPipeline.




End ResilientCounting.


(** * Further properties of [dashboard/working_pipeline.py] *)

Module WorkingExtras.
Import WorkingPipeline.

(** The two connection set-ups of [__init__] never raise and never exit:
    afterwards [conn] is set exactly when the connection, both table
    creations and the commit all succeeded, and [s3_client] exactly when
    [list_buckets] succeeded. *)
Lemma connection_setups_effect (s : Self) :
  exists Ddb Ds3,
    trace (world (M.exec init s)) = Ds3 ++ Ddb ++ trace (world s)
    /\ M.outcome init s = Ok tt
    /\ conn (M.exec init s) = (forallb snd Ddb && (length Ddb =? 4)%nat)
    /\ s3_client (M.exec init s) = forallb snd Ds3
    /\ Forall (fun e => is_database_request e = true) Ddb
    /\ exists listed, Ds3 = [(ListBuckets, listed)].
Proof.
  destruct s as [[f tr sm d n] c s3 rc ac].
  unfold M.exec, M.outcome, init, setup_database, setup_minio, set_conn,
    set_s3_client.
  unfold M.try_except, M.bind, M.backend, M.ret, M.modify, perform. cbn.
  case_faults f.
  all: match goal with
       | |- exists Ddb Ds3, ?x :: ?L = _ /\ _ =>
           let pre := prefix_of L tr in exists pre, [x]
       end.
  all: repeat split; try reflexivity; eauto; repeat constructor.
Qed.

(** What the object-store save does, for every answer of the fault
    oracle. *)
Lemma save_to_minio_effect (r : Reading) (p : Z) (s : Self) :
  exists D,
    trace (world (M.exec (save_to_minio r p) s)) = D ++ trace (world s)
    /\ M.outcome (save_to_minio r p) s = Ok tt
    /\ conn (M.exec (save_to_minio r p) s) = conn s
    /\ s3_client (M.exec (save_to_minio r p) s) = s3_client s
    /\ reading_count (M.exec (save_to_minio r p) s) = reading_count s
    /\ existsb is_database_request D = false
    /\ (s3_client s = false -> D = [])
    /\ (length (List.filter (is_put_into "silver") D)
        + length (List.filter (is_put_into "gold") D)
        <= length (List.filter (is_put_into "bronze") D) <= 1)%nat
    /\ (if Z.eqb p (-1) then length (List.filter (is_put_into "silver") D)
        else length (List.filter (is_put_into "gold") D)) = 0%nat
    /\ (s3_client s = true -> forallb snd D = true ->
        length (List.filter (is_put_into "bronze") D) = 1%nat
        /\ (length (List.filter (is_put_into "silver") D)
            + length (List.filter (is_put_into "gold") D) = 1)%nat).
Proof.
  destruct s as [[f tr sm d n] c s3 rc ac].
  unfold M.exec, M.outcome, save_to_minio.
  unfold M.try_except, M.bind, M.backend, M.ret, M.get, M.clock, perform. cbn.
  destruct s3; cbn.
  - destruct (Z.eqb p (-1)); cbn.
    all: case_faults f.
    all: give_prefix; split; [reflexivity |].
    all: repeat split; try reflexivity; try discriminate;
      try (cbn; lia); try (vm_compute; lia).
  - exists []. destruct (Z.eqb p (-1));
      repeat split; try reflexivity; try discriminate; cbn; lia.
Qed.

(** The object-store save never raises; it puts at most one object into
    bronze, puts into silver or gold only after bronze and only into the
    bucket of the prediction, and, when every request succeeds, exactly one
    object into bronze and one into silver or gold; without a client it makes
    no request. *)
Theorem save_to_minio_routes (r : Reading) (p : Z) (s : Self) :
  let D := events_since (trace (world s))
             (trace (world (M.exec (save_to_minio r p) s))) in
  M.outcome (save_to_minio r p) s = Ok tt
  /\ (s3_client s = false -> D = [])
  /\ (length (List.filter (is_put_into "silver") D)
      + length (List.filter (is_put_into "gold") D)
      <= length (List.filter (is_put_into "bronze") D) <= 1)%nat
  /\ (if Z.eqb p (-1) then length (List.filter (is_put_into "silver") D)
      else length (List.filter (is_put_into "gold") D)) = 0%nat
  /\ (s3_client s = true -> forallb snd D = true ->
      length (List.filter (is_put_into "bronze") D) = 1%nat
      /\ (length (List.filter (is_put_into "silver") D)
          + length (List.filter (is_put_into "gold") D) = 1)%nat).
Proof.
  intros D. subst D.
  destruct (save_to_minio_effect r p s)
    as (D & Ht & Ho & _ & _ & _ & _ & Hoff & Hbound & Hroute & Hfull).
  rewrite Ht, events_since_app. repeat split; try assumption.
  - apply Hbound.
  - apply Hbound.
  - apply Hfull; assumption.
  - apply Hfull; assumption.
Qed.

Section Loop.

Variable predict : list Reading -> result (list Z).

(** The state of a run that started at trace [tr0] without a database
    connection. *)
Definition offline_since (tr0 : list (op * bool)) (s : Self) : Prop :=
  conn s = false
  /\ exists D,
       trace (world s) = D ++ tr0
       /\ existsb is_database_request D = false.

Lemma process_sensor_stays_offline (tr0 : list (op * bool))
  (sensor : string) (s : Self) :
  offline_since tr0 s ->
  offline_since tr0 (M.exec (process_sensor predict sensor) s).
Proof.
  intros (Hconn & D0 & Ht0 & Hd0).
  unfold process_sensor, generate_sensor_reading, classify.
  unfold M.exec, M.bind at 1 2. unfold M.next_sample, M.lift, M.ret, draw. cbn.
  unfold M.bind at 1 2. cbn.
  destruct (predict _) as [[| p ps] | e]; cbn;
    try (split; [exact Hconn | exists D0; split; assumption]).
  match goal with
  | |- context [M.bind (save_to_minio ?r ?p) ?k ?s0] =>
      destruct (save_to_minio_effect r p s0)
        as (D & Ht & Ho & Hc & _ & _ & Hd & _);
      set (s1 := s0) in *;
      change (snd (M.bind (save_to_minio r p) k s1))
        with (M.exec (M.bind (save_to_minio r p) k) s1);
      rewrite (exec_bind _ _ _ _ Ho)
  end.
  set (s2 := M.exec (save_to_minio _ p) s1) in *.
  assert (Hc2 : conn s2 = false) by (rewrite Hc; exact Hconn).
  assert (Hdb : save_to_database
                  {| sensor_id := sensor;
                     timestamp := s_timestamp (samples (world s) (drawn (world s)));
                     temperature := s_temperature (samples (world s) (drawn (world s)));
                     humidity := s_humidity (samples (world s) (drawn (world s)));
                     actual_anomaly := s_is_anomaly (samples (world s) (drawn (world s)));
                     severity := "" |} p s2 = (Ok tt, s2)).
  { unfold save_to_database, M.bind, M.get. cbn. rewrite Hc2. reflexivity. }
  unfold M.exec, M.bind at 1. rewrite Hdb.
  unfold M.bind, bump_reading_count, bump_anomaly_count, M.modify, M.ret.
  assert (Htrace : trace (world s2) = (D ++ D0) ++ tr0).
  { rewrite Ht. cbn. rewrite Ht0. apply app_assoc. }
  destruct (Z.eqb p (-1)); cbn.
  all: split; [exact Hc2 |]; exists (D ++ D0);
    split; [exact Htrace |];
    rewrite existsb_app, Hd, Hd0; reflexivity.
Qed.

(** A pipeline whose connection failed at startup makes no database
    request for the rest of its run -- no insertion, no commit, and no
    [close] in the [finally] clause -- and [conn] stays [None]. *)
Theorem offline_run_makes_no_database_request (n : nat) (s : Self) :
  conn s = false ->
  conn (M.exec (run_pipeline predict n) s) = false
  /\ existsb is_database_request
       (events_since (trace (world s))
          (trace (world (M.exec (run_pipeline predict n) s)))) = false.
Proof.
  intros Hconn.
  assert (Hstart : offline_since (trace (world s)) s).
  { split; [exact Hconn |]. exists []. split; reflexivity. }
  assert (Hloop : offline_since (trace (world s))
                    (M.exec (M.iterate n (cycle predict)) s)).
  { apply (iterate_invariant (offline_since (trace (world s)))); [| exact Hstart].
    intros s0. unfold cycle.
    apply (for_each_invariant (offline_since (trace (world s)))).
    intros sensor s1. apply process_sensor_stays_offline. }
  assert (Hrun : M.exec (run_pipeline predict n) s
                 = M.exec (M.iterate n (cycle predict)) s).
  { unfold run_pipeline. unfold M.exec at 1. unfold M.try_finally.
    rewrite interrupted_loop.
    destruct Hloop as (Hc1 & _).
    unfold close_connection, M.bind, M.get. rewrite Hc1. reflexivity. }
  rewrite Hrun. destruct Hloop as (Hc & D & Ht & Hd).
  split; [exact Hc |]. rewrite Ht, events_since_app. exact Hd.
Qed.

End Loop.

End WorkingExtras.

(** * Startup of [dashboard/working_pipeline.py] *)

Section WorkingStartupProperties.

Context {Scaler Model : Type}.
Variable scaler_fit_transform :
  Scaler -> AnomalyDetector.ndarray -> Scaler * result AnomalyDetector.ndarray.
Variable model_fit :
  Model -> AnomalyDetector.ndarray -> Model * result unit.

(** What [load_model] of the working pipeline leaves, by the content of
    the model file and the outcome of training. *)
Lemma working_load_model_effect
  (fs fs1 : AnomalyDetector.FS Scaler Model)
  (d d1 : AnomalyDetector.t Scaler Model) (training_data : list Reading)
  (r : result unit) :
  WorkingStartup.load_model scaler_fit_transform model_fit fs d training_data
  = (fs1, d1, r) ->
  match r with
  | Ok _ =>
      AnomalyDetector.is_trained d1 = true
      /\ AnomalyDetector.files fs1 !! WorkingStartup.model_path
         = Some (AnomalyDetector.Pickled (AnomalyDetector.model d1)
                   (AnomalyDetector.scaler d1))
  | Raise e =>
      fs1 = fs
      /\ (forall m sc,
            AnomalyDetector.files fs !! WorkingStartup.model_path
            <> Some (AnomalyDetector.Pickled m sc))
      /\ (AnomalyDetector.train scaler_fit_transform model_fit d training_data
          = (d1, Raise e)
          \/ (AnomalyDetector.train scaler_fit_transform model_fit d
                training_data = (d1, Ok tt)
              /\ AnomalyDetector.writable fs WorkingStartup.model_path = false
              /\ e = OSError))
  end.
Proof.
  unfold WorkingStartup.load_model, AnomalyDetector.load_model.
  destruct (AnomalyDetector.files fs !! WorkingStartup.model_path)
    as [[m sc |] |] eqn:Hfile.
  - intros [= <- <- <-]. cbn. split; [reflexivity | exact Hfile].
  - unfold WorkingStartup.train_model.
    destruct (AnomalyDetector.train _ _ d training_data) as [d2 [[] | e]] eqn:Ht.
    + pose proof (train_ok_sets_flag _ _ _ _ _ Ht) as Hflag.
      unfold AnomalyDetector.save_model.
      destruct (AnomalyDetector.writable fs _) eqn:Hw; intros [= <- <- <-].
      * split; [exact Hflag | apply lookup_insert_eq].
      * split; [reflexivity |]. split; [discriminate |].
        right. repeat split; reflexivity.
    + intros [= <- <- <-]. split; [reflexivity |]. split; [discriminate |].
      left. reflexivity.
  - unfold WorkingStartup.train_model.
    destruct (AnomalyDetector.train _ _ d training_data) as [d2 [[] | e]] eqn:Ht.
    + pose proof (train_ok_sets_flag _ _ _ _ _ Ht) as Hflag.
      unfold AnomalyDetector.save_model.
      destruct (AnomalyDetector.writable fs _) eqn:Hw; intros [= <- <- <-].
      * split; [exact Hflag | apply lookup_insert_eq].
      * split; [reflexivity |]. split; [discriminate |].
        right. repeat split; reflexivity.
    + intros [= <- <- <-]. split; [reflexivity |]. split; [discriminate |].
      left. reflexivity.
Qed.

(** [__init__] of the working pipeline raises only out of [load_model]:
    when the model file cannot be loaded and training or saving the new
    model raises, that exception leaves [__init__] before any backend is
    contacted.  Once the model is there, nothing the database or MinIO
    answers makes [__init__] raise or exit: it returns with a trained
    detector, [conn] set exactly when the connection, both table creations
    and the commit all succeeded, and [s3_client] exactly when
    [list_buckets] succeeded. *)
Theorem init_raises_only_out_of_load_model
  (fresh_model : Model) (fresh_scaler : Scaler) (training_data : list Reading)
  (fs fs1 : AnomalyDetector.FS Scaler Model)
  (detector : AnomalyDetector.t Scaler Model)
  (s s1 : WorkingPipeline.Self) (r : result unit) :
  WorkingStartup.init scaler_fit_transform model_fit fresh_model fresh_scaler
    training_data fs s = (fs1, detector, (r, s1)) ->
  match r with
  | Raise e =>
      s1 = s /\ fs1 = fs
      /\ (forall m sc,
            AnomalyDetector.files fs !! WorkingStartup.model_path
            <> Some (AnomalyDetector.Pickled m sc))
      /\ (AnomalyDetector.train scaler_fit_transform model_fit
            (AnomalyDetector.init Scaler Model fresh_model fresh_scaler)
            training_data = (detector, Raise e)
          \/ (AnomalyDetector.train scaler_fit_transform model_fit
                (AnomalyDetector.init Scaler Model fresh_model fresh_scaler)
                training_data = (detector, Ok tt)
              /\ AnomalyDetector.writable fs WorkingStartup.model_path = false
              /\ e = OSError))
  | Ok _ =>
      AnomalyDetector.is_trained detector = true
      /\ AnomalyDetector.files fs1 !! WorkingStartup.model_path
         = Some (AnomalyDetector.Pickled (AnomalyDetector.model detector)
                   (AnomalyDetector.scaler detector))
      /\ exists Ddb Ds3,
           trace (WorkingPipeline.world s1)
           = Ds3 ++ Ddb ++ trace (WorkingPipeline.world s)
           /\ WorkingPipeline.conn s1
              = (forallb snd Ddb && (length Ddb =? 4)%nat)
           /\ WorkingPipeline.s3_client s1 = forallb snd Ds3
           /\ Forall (fun e => is_database_request e = true) Ddb
           /\ exists listed, Ds3 = [(ListBuckets, listed)]
  end.
Proof.
  unfold WorkingStartup.init.
  destruct (WorkingStartup.load_model _ _ fs _ training_data)
    as [[fs2 d2] [[] | e]] eqn:Hload;
    pose proof (working_load_model_effect _ _ _ _ _ _ Hload) as Heffect;
    cbn beta iota in Heffect.
  - destruct (WorkingExtras.connection_setups_effect s)
      as (Ddb & Ds3 & Ht & Ho & Hc & Hs3 & Hdb & Hl).
    unfold M.exec, M.outcome in *.
    destruct (WorkingPipeline.init s) as [r0 s0]. cbn [fst snd] in *.
    intros [= <- <- <- <-]. subst r0.
    destruct Heffect as [Hflag Hfile].
    split; [exact Hflag |]. split; [exact Hfile |].
    exists Ddb, Ds3. repeat split; assumption.
  - intros [= <- <- <- <-].
    destruct Heffect as (Hfs & Hfile & Htrain).
    split; [reflexivity |]. split; [exact Hfs |]. split; assumption.
Qed.

End WorkingStartupProperties.

(** * Instances of the properties above *)

Lemma predict_labels_witness :
  Fixtures.predict Fixtures.trained
    [Fixtures.normal_reading; Fixtures.hot_reading] = Ok [NORMAL; ANOMALOUS]
  /\ Forall (fun p => p = ANOMALOUS \/ p = NORMAL) [NORMAL; ANOMALOUS].
Proof.
  split; [reflexivity |].
  destruct (predict_labels Fixtures.scaler_transform Fixtures.model_predict
              Fixtures.trained
              [Fixtures.normal_reading; Fixtures.hot_reading]
              [NORMAL; ANOMALOUS] eq_refl) as [Hlabels _].
  exact Hlabels.
Defined.

Lemma train_flag_witness :
  AnomalyDetector.train Fixtures.scaler_fit_transform Fixtures.model_fit
    Fixtures.untrained [] = (Fixtures.untrained, Raise ValueError)
  /\ AnomalyDetector.is_trained Fixtures.untrained
     = AnomalyDetector.is_trained Fixtures.untrained.
Proof.
  split; [reflexivity |].
  destruct (train_flag Fixtures.scaler_fit_transform Fixtures.model_fit
              Fixtures.untrained Fixtures.untrained [] (Raise ValueError)
              eq_refl) as [Hflag _].
  exact Hflag.
Defined.

Lemma startup_then_restart_witness :
  exists fs1 d1,
    ModelStartup.load_model Fixtures.scaler_fit_transform Fixtures.model_fit
      Fixtures.empty_fs Fixtures.untrained
      [Fixtures.normal_reading; Fixtures.hot_reading] = (fs1, d1, Ok tt)
    /\ AnomalyDetector.is_trained d1 = true
    /\ exists d2,
         ModelStartup.load_model Fixtures.scaler_fit_transform
           Fixtures.model_fit fs1 Fixtures.untrained [] = (fs1, d2, Ok tt).
Proof.
  eexists. eexists.
  assert (Hfirst :
    ModelStartup.load_model Fixtures.scaler_fit_transform Fixtures.model_fit
      Fixtures.empty_fs Fixtures.untrained
      [Fixtures.normal_reading; Fixtures.hot_reading]
    = ({| AnomalyDetector.files :=
            <[ModelStartup.model_path := AnomalyDetector.Pickled true true]>
              (AnomalyDetector.files Fixtures.empty_fs);
          AnomalyDetector.writable :=
            AnomalyDetector.writable Fixtures.empty_fs |},
       AnomalyDetector.mk true true true, Ok tt)).
  { unfold ModelStartup.load_model, AnomalyDetector.load_model.
    cbn [AnomalyDetector.files Fixtures.empty_fs].
    rewrite lookup_empty. reflexivity. }
  split; [exact Hfirst |].
  destruct (startup_then_restart Fixtures.scaler_fit_transform
              Fixtures.scaler_transform Fixtures.model_fit
              Fixtures.model_predict _ _ _ _ Fixtures.untrained _ [] Hfirst)
    as (Htrained & _ & d2 & Hsecond & _).
  split; [exact Htrained |]. exists d2. exact Hsecond.
Defined.

Lemma startup_without_model_file_witness :
  AnomalyDetector.files Fixtures.empty_fs !! ModelStartup.model_path = None
  /\ AnomalyDetector.load_model Fixtures.empty_fs Fixtures.untrained
       ModelStartup.model_path
     = (Fixtures.untrained, Raise FileNotFoundError).
Proof.
  split; [apply lookup_empty |].
  destruct (startup_without_model_file Fixtures.scaler_fit_transform
              Fixtures.model_fit Fixtures.empty_fs Fixtures.untrained []
              (lookup_empty _)) as [Hload _].
  exact Hload.
Defined.

Lemma counters_stay_ordered_witness :
  FinalExtras.counters_ordered (Fixtures.final_self [1%nat; 4%nat])
  /\ FinalExtras.counters_ordered
       (M.exec (FinalWorkingPipeline.run_cycles
                  (Fixtures.predict Fixtures.trained) 2)
          (Fixtures.final_self [1%nat; 4%nat])).
Proof.
  assert (Hstart :
    FinalExtras.counters_ordered (Fixtures.final_self [1%nat; 4%nat])).
  { unfold FinalExtras.counters_ordered. cbn. lia. }
  split; [exact Hstart |].
  apply (FinalExtras.counters_stay_ordered
           (Fixtures.predict Fixtures.trained) 2 _ Hstart).
Defined.

Lemma cycle_follows_sensor_order_witness :
  exists s',
    FinalWorkingPipeline.cycle (Fixtures.predict Fixtures.trained)
      (Fixtures.final_self [3%nat]) = (Ok tt, s')
    /\ rev (inserted_sensors
              (events_since
                 (trace (FinalWorkingPipeline.world
                           (Fixtures.final_self [3%nat])))
                 (trace (FinalWorkingPipeline.world s'))))
       = FinalWorkingPipeline.sensors.
Proof.
  exists (snd (FinalWorkingPipeline.cycle (Fixtures.predict Fixtures.trained)
                 (Fixtures.final_self [3%nat]))).
  assert (Hcycle :
    FinalWorkingPipeline.cycle (Fixtures.predict Fixtures.trained)
      (Fixtures.final_self [3%nat])
    = (Ok tt,
       snd (FinalWorkingPipeline.cycle (Fixtures.predict Fixtures.trained)
              (Fixtures.final_self [3%nat])))).
  { vm_compute. reflexivity. }
  split; [exact Hcycle |].
  exact (FinalExtras.cycle_follows_sensor_order _ _ _ Hcycle).
Defined.

Lemma resilient_pipeline_never_serves_witness :
  ResilientStartup.assigned (fresh_resilient_object []) = false
  /\ ResilientStartup.main (M.raise ValueError) (fresh_resilient_object [])
     = (Ok tt, M.exec ResilientStartup.init (fresh_resilient_object [])).
Proof.
  split; [reflexivity |].
  destruct (ResilientStartupExtras.resilient_pipeline_never_serves
              (M.raise ValueError) (fresh_resilient_object []) eq_refl)
    as [Hmain _].
  exact Hmain.
Defined.

Lemma offline_run_makes_no_database_request_witness :
  WorkingPipeline.conn
    (M.exec WorkingPipeline.init (Fixtures.working_self [0%nat])) = false
  /\ WorkingPipeline.conn
       (M.exec (WorkingPipeline.run_pipeline
                  (Fixtures.predict Fixtures.trained) 1)
          (M.exec WorkingPipeline.init (Fixtures.working_self [0%nat])))
     = false.
Proof.
  split; [reflexivity |].
  destruct (WorkingExtras.offline_run_makes_no_database_request
              (Fixtures.predict Fixtures.trained) 1
              (M.exec WorkingPipeline.init (Fixtures.working_self [0%nat]))
              eq_refl) as [Hconn _].
  exact Hconn.
Defined.

Lemma init_raises_only_out_of_load_model_witness :
  exists fs1 detector s1,
    WorkingStartup.init Fixtures.scaler_fit_transform Fixtures.model_fit
      false false [Fixtures.normal_reading; Fixtures.hot_reading]
      Fixtures.empty_fs (Fixtures.working_self [0%nat])
    = (fs1, detector, (Ok tt, s1))
    /\ AnomalyDetector.is_trained detector = true
    /\ WorkingPipeline.conn s1 = false
    /\ WorkingPipeline.s3_client s1 = true.
Proof.
  do 3 eexists.
  match goal with
  | |- ?E /\ _ => assert (Hinit : E) by (vm_compute; reflexivity)
  end.
  split; [exact Hinit |].
  destruct (init_raises_only_out_of_load_model _ _ _ _ _ _ _ _ _ _ _ Hinit)
    as (Htrained & _).
  split; [exact Htrained |]. split; vm_compute; reflexivity.
Defined.
